(** * nettside/web_visualization.py: dates, range filter and chart titles

    A shallow embedding of the data pipeline of [web_visualization.py]:
    [fix_dates], [get_data], [plot_reported_cases], [plot_cumulative_cases]
    and [plot_both], and of the two routes that call it, [both] and
    [handle_date].

    Python values are modelled as follows.
    - [str] is [string], the bytes of its UTF-8 form.  [str.lower] is
      computed on ASCII text and taken as given on other text.  [\d] is
      computed as 0-9, which is what it matches in ASCII text; the
      statements that rest on a match or on its absence in the text of a
      caller are stated for ASCII text.
    - An exception is a value of [exn]; a call that may raise returns
      [result].
    - A pandas [Timestamp] is a record of calendar fields ordered
      lexicographically; a [DataFrame] is the list of its rows in file order.
    - What pandas does with files and with date strings is not part of the
      source: the file store, the CSV parser and the string-to-Timestamp
      conversion are variables of the section that holds the plot functions.
    - An altair chart is a record of the arguments it was built from. *)

From Stdlib Require Import String Ascii List Arith Bool ZArith Lia.
Import ListNotations.
Open Scope list_scope.
Open Scope string_scope.

(** ** Exceptions *)

Inductive exn : Type :=
| IndexError
| FileNotFoundError
| TypeError
| ValueError
| ParserError.

Inductive result (A : Type) : Type :=
| Ok (a : A)
| Raise (e : exn).

Arguments Ok {A} a.
Arguments Raise {A} e.

Definition bind {A B : Type} (m : result A) (k : A -> result B) : result B :=
  match m with
  | Ok a => k a
  | Raise e => Raise e
  end.

Notation "x <- m ;; k" := (bind m (fun x => k))
  (at level 61, m at next level, right associativity).
Notation "' p <- m ;; k" := (bind m (fun x => match x with p => k end))
  (at level 61, p pattern, m at next level, right associativity).

(** ** Python built-ins on sequences and strings *)

(** [l[i]]: a negative index counts from the end, an index out of range
    raises [IndexError].  Also [Series.iloc[i]]. *)
Definition py_index {A : Type} (l : list A) (i : Z) : result A :=
  let n := Z.of_nat (List.length l) in
  let j := if (i <? 0)%Z then (i + n)%Z else i in
  if ((0 <=? j)%Z && (j <? n)%Z)%bool then
    match nth_error l (Z.to_nat j) with
    | Some x => Ok x
    | None => Raise IndexError
    end
  else Raise IndexError.

(** [s.startswith(p)] *)
Fixpoint startswith (p s : string) : bool :=
  match p with
  | EmptyString => true
  | String a p' =>
      match s with
      | EmptyString => false
      | String b s' => Ascii.eqb a b && startswith p' s'
      end
  end.

(** [sub in s] *)
Fixpoint str_in (sub s : string) : bool :=
  startswith sub s ||
  match s with
  | EmptyString => false
  | String _ s' => str_in sub s'
  end.

(** [s.split(sep)] for a one-character separator. *)
Fixpoint split (sep : ascii) (s : string) : list string :=
  match s with
  | EmptyString => [EmptyString]
  | String c s' =>
      if Ascii.eqb c sep then EmptyString :: split sep s'
      else match split sep s' with
           | [] => [String c EmptyString]
           | f :: fs => String c f :: fs
           end
  end.

Definition lower_char (c : ascii) : ascii :=
  let n := nat_of_ascii c in
  if ((65 <=? n)%nat && (n <=? 90)%nat)%bool then ascii_of_nat (n + 32) else c.

(** [s.lower()] for ASCII [s]: A-Z are folded, the other bytes are kept. *)
Fixpoint lower (s : string) : string :=
  match s with
  | EmptyString => EmptyString
  | String c s' => String (lower_char c) (lower s')
  end.

Fixpoint is_ascii (s : string) : bool :=
  match s with
  | EmptyString => true
  | String c s' => (nat_of_ascii c <? 128)%nat && is_ascii s'
  end.

(** [s.lower()]: on text that is not ASCII Python consults the Unicode
    tables; what it returns there is [unicode_lower s], taken as given. *)
Definition str_lower (unicode_lower : string -> string) (s : string) : string :=
  if is_ascii s then lower s else unicode_lower s.

(** Case-insensitive equality of two texts, as the specification words it
    for region identifiers: the same characters, up to the case of the
    letters A-Z. *)
Definition is_upper (c : ascii) : bool :=
  ((65 <=? nat_of_ascii c)%nat && (nat_of_ascii c <=? 90)%nat)%bool.

Definition same_letter (a b : ascii) : bool :=
  (Ascii.eqb a b
   || (is_upper a && (nat_of_ascii b =? nat_of_ascii a + 32)%nat)
   || (is_upper b && (nat_of_ascii a =? nat_of_ascii b + 32)%nat))%bool.

Fixpoint eq_ignore_case (s s' : string) : bool :=
  match s, s' with
  | EmptyString, EmptyString => true
  | String a r, String b r' => same_letter a b && eq_ignore_case r r'
  | _, _ => false
  end.

(** ** Regular expressions: a sequence of character classes

    The only pattern of the source is ['\d{4}-\d{2}-\d{2}'], a fixed-length
    sequence of character classes. *)

Inductive cls : Type :=
| Digit
| Lit (c : ascii).

(** [\d] on a character of ASCII text. *)
Definition is_digit (c : ascii) : bool :=
  ((48 <=? nat_of_ascii c)%nat && (nat_of_ascii c <=? 57)%nat)%bool.

Definition cls_match (k : cls) (c : ascii) : bool :=
  match k with
  | Digit => is_digit c
  | Lit a => Ascii.eqb a c
  end.

(** The text matched by [pat] at the start of [s], if any. *)
Fixpoint match_prefix (pat : list cls) (s : string) : option string :=
  match pat with
  | [] => Some EmptyString
  | k :: pat' =>
      match s with
      | EmptyString => None
      | String c s' =>
          if cls_match k c then
            match match_prefix pat' s' with
            | Some m => Some (String c m)
            | None => None
            end
          else None
      end
  end.

(** [re.fullmatch(pat, s) is not None] *)
Definition fullmatch (pat : list cls) (s : string) : bool :=
  match match_prefix pat s with
  | Some m => String.eqb m s
  | None => false
  end.

(** Leftmost non-overlapping matches; [skip] counts the characters of the
    previous match still to be passed over. *)
Fixpoint findall_from (pat : list cls) (skip : nat) (s : string) : list string :=
  match s with
  | EmptyString => []
  | String _ s' =>
      match skip with
      | S k => findall_from pat k s'
      | O =>
          match match_prefix pat s with
          | Some m => m :: findall_from pat (String.length m - 1) s'
          | None => findall_from pat 0 s'
          end
      end
  end.

(** [re.findall(pat, s)] for a pattern that matches no empty string. *)
Definition re_findall (pat : list cls) (s : string) : list string :=
  findall_from pat 0 s.

(** ['\d{4}-\d{2}-\d{2}'] *)
Definition regs : list cls :=
  [Digit; Digit; Digit; Digit; Lit "-"; Digit; Digit; Lit "-"; Digit; Digit].

(** ['\d{2}/\d{2}/\d{4}'], the day-first form of the module docstring. *)
Definition dmy_shape : list cls :=
  [Digit; Digit; Lit "/"; Digit; Digit; Lit "/"; Digit; Digit; Digit; Digit].

(** ** fix_dates *)

Definition fix_dates (dmy_date : string) : result string :=
  if str_in "-" dmy_date then
    (* Date is already a ISO date, don't reformat it *)
    Ok dmy_date
  else
    let date_array := split "/" dmy_date in
    y <- py_index date_array 2 ;;
    m <- py_index date_array 1 ;;
    d <- py_index date_array 0 ;;
    Ok (y ++ "-" ++ m ++ "-" ++ d).

(** ** pandas values *)

(** A [Timestamp]: calendar date and seconds since midnight.  pandas keeps
    years within 1677..2262, so the year prints on four digits. *)
Record Timestamp : Type := mkTimestamp {
  year : nat;
  month : nat;
  day : nat;
  seconds : nat
}.

Definition ts_leb (a b : Timestamp) : bool :=
  (year a <? year b)%nat ||
  ((year a =? year b)%nat &&
   ((month a <? month b)%nat ||
    ((month a =? month b)%nat &&
     ((day a <? day b)%nat ||
      ((day a =? day b)%nat && (seconds a <=? seconds b)%nat))))).

Definition ts_ltb (a b : Timestamp) : bool := negb (ts_leb b a).

Definition digit_char (n : nat) : ascii := ascii_of_nat (48 + n mod 10).

Definition pad2 (n : nat) : string :=
  String (digit_char (n / 10)) (String (digit_char n) EmptyString).

Definition pad4 (n : nat) : string :=
  String (digit_char (n / 1000)) (String (digit_char (n / 100)) (pad2 n)).

(** [t.date().isoformat()], the first ten characters of [str(t)]. *)
Definition isoformat (t : Timestamp) : string :=
  pad4 (year t) ++ "-" ++ pad2 (month t) ++ "-" ++ pad2 (day t).

(** [str(t)], as in ['2020-03-12 00:00:00']. *)
Definition str_timestamp (t : Timestamp) : string :=
  isoformat t ++ " " ++ pad2 (seconds t / 3600) ++ ":" ++
  pad2 (seconds t / 60 mod 60) ++ ":" ++ pad2 (seconds t mod 60).

(** One row of a data file; the fields are the columns the charts read:
    ['Dato'], ['Nye tilfeller'], ['Kumulativt antall']. *)
Record Row : Type := mkRow {
  Dato : Timestamp;
  Nye_tilfeller : Z;
  Kumulativt_antall : Z
}.

Definition DataFrame : Type := list Row.

(** The value bound to [start] or [end] after lines 64-74: the normalised
    [str] of the caller, or the [Timestamp] read from the column. *)
Inductive bound : Type :=
| BStr (s : string)
| BTimestamp (t : Timestamp).

(** [str(b)] *)
Definition py_str (b : bound) : string :=
  match b with
  | BStr s => s
  | BTimestamp t => str_timestamp t
  end.

(** Dates in file order do not decrease. *)
Fixpoint is_sorted (data : DataFrame) : bool :=
  match data with
  | [] => true
  | r :: rest =>
      match rest with
      | [] => true
      | r' :: _ => ts_leb (Dato r) (Dato r') && is_sorted rest
      end
  end.

(** [data["Dato"].min()] and [data["Dato"].max()]; [None] on no rows. *)
Definition min_date (data : DataFrame) : option Timestamp :=
  match data with
  | [] => None
  | r :: rest =>
      Some (fold_left (fun m x => if ts_leb (Dato x) m then Dato x else m)
                      rest (Dato r))
  end.

Definition max_date (data : DataFrame) : option Timestamp :=
  match data with
  | [] => None
  | r :: rest =>
      Some (fold_left (fun m x => if ts_leb m (Dato x) then Dato x else m)
                      rest (Dato r))
  end.

(** ** altair values *)

Inductive Mark : Type :=
| mark_bar
| mark_line (color : string).

(** [alt.Chart(data, title=...).mark_*().encode(x, y, tooltip).properties(width)] *)
Record Chart : Type := mkChart {
  chart_data : DataFrame;
  chart_title : string;
  chart_mark : Mark;
  encode_x : string;
  encode_y : string;
  encode_tooltip : list string;
  properties_width : nat
}.

Inductive Resolve : Type :=
| shared
| independent.

(** [alt.layer(c1, c2, title=...)]; [resolve_y] is [None] until
    [resolve_scale(y=...)] sets it. *)
Record LayerChart : Type := mkLayerChart {
  layer : list Chart;
  layer_title : string;
  resolve_y : option Resolve
}.

Definition resolve_scale (y : Resolve) (c : LayerChart) : LayerChart :=
  {| layer := layer c; layer_title := layer_title c; resolve_y := Some y |}.

(** [os.path.join(a, b)] on POSIX. *)
Definition os_path_join (a b : string) : string :=
  if startswith "/" b then b
  else if String.eqb a "" then b
  else if String.eqb (substring (String.length a - 1) 1 a) "/" then a ++ b
  else a ++ "/" ++ b.

(** ** The plot functions

    [str.lower] beyond ASCII, the file store, pandas' CSV parser (called
    with [sep=';'], [parse_dates=["Dato"]], [dayfirst=True]) and pandas'
    conversion of a [str] that is compared with a datetime column are taken
    as given. *)

(** The dtype of the column ['Dato'] as [read_csv] leaves it: the dates are
    parsed to [datetime64] when the file has a row; with no row there is
    nothing to parse and the column stays [object]. *)
Inductive dtype : Type :=
| datetime64
| object_.

Definition dato_dtype (data : DataFrame) : dtype :=
  match data with
  | [] => object_
  | _ :: _ => datetime64
  end.

Section Plots.

Variable unicode_lower : string -> string.
Variable fs : string -> option string.
Variable parse_csv : string -> result DataFrame.
Variable to_datetime : string -> option Timestamp.

(** [pd.read_csv(file, ...)] *)
Definition read_csv (file : string) : result DataFrame :=
  match fs file with
  | None => Raise FileNotFoundError
  | Some text => parse_csv text
  end.

(** The file [get_data] reads. *)
Definition data_file (county : string) : string :=
  os_path_join "data_files_updated"
               ("antall-meldte-covid-19-" ++ str_lower unicode_lower county
                ++ ".csv").

Definition get_data (county : string) : result DataFrame :=
  let file := data_file county in
  read_csv file.

(** [data[data["Dato"] >= s]].  On a [datetime64] column pandas converts
    [s], and a [str] it cannot convert makes the comparison raise
    [TypeError], whether rows are left or not.  An [object] column has no
    row: nothing is converted and no row is selected. *)
Definition select_ge (column : dtype) (data : DataFrame) (s : string)
  : result DataFrame :=
  match column with
  | datetime64 =>
      match to_datetime s with
      | Some t => Ok (filter (fun r => ts_leb t (Dato r)) data)
      | None => Raise TypeError
      end
  | object_ => Ok []
  end.

(** [data[data["Dato"] <= s]] *)
Definition select_le (column : dtype) (data : DataFrame) (s : string)
  : result DataFrame :=
  match column with
  | datetime64 =>
      match to_datetime s with
      | Some t => Ok (filter (fun r => ts_leb (Dato r) t) data)
      | None => Raise TypeError
      end
  | object_ => Ok []
  end.

(** Lines 64-74 of [plot_reported_cases], repeated word for word as lines
    106-115 of [plot_cumulative_cases]: the slice and the two bounds.  The
    column keeps the dtype it was loaded with through both selections. *)
Definition range_filter (data : DataFrame) (start end_ : option string)
  : result (DataFrame * bound * bound) :=
  let column := dato_dtype data in
  '(data, start) <-
    match start with
    | Some start =>
        start <- fix_dates start ;;
        data <- select_ge column data start ;;
        Ok (data, BStr start)
    | None =>
        start <- py_index (map Dato data) 0 ;;
        Ok (data, BTimestamp start)
    end ;;
  '(data, end_) <-
    match end_ with
    | Some end_ =>
        end_ <- fix_dates end_ ;;
        data <- select_le column data end_ ;;
        Ok (data, BStr end_)
    | None =>
        end_ <- py_index (map Dato data) (-1) ;;
        Ok (data, BTimestamp end_)
    end ;;
  Ok (data, start, end_).

(** Lines 58-62 and 100-104: the data and the name used in the title. *)
Definition load_county (county : string) : result (DataFrame * string) :=
  if negb (String.eqb county "allcounties") then
    data <- get_data county ;;
    Ok (data, county)
  else
    data <- get_data "allcounties" ;;
    Ok (data, "Norge").

Definition plot_reported_cases (county : string) (start end_ : option string)
  : result Chart :=
  '(data, county) <- load_county county ;;
  '(data, start, end_) <- range_filter data start end_ ;;
  (* remove timestamp *)
  end_ <- py_index (re_findall regs (py_str end_)) 0 ;;
  start <- py_index (re_findall regs (py_str start)) 0 ;;
  let title := "Oversikt over antall rapporterte smitttede i " ++ county
               ++ " fra " ++ start ++ " til " ++ end_ in
  Ok {| chart_data := data;
        chart_title := title;
        chart_mark := mark_bar;
        encode_x := "Dato";
        encode_y := "Nye tilfeller";
        encode_tooltip := ["Dato"; "Nye tilfeller"];
        properties_width := 1120 |}.

Definition plot_cumulative_cases (county : string) (start end_ : option string)
  : result Chart :=
  '(data, county) <- load_county county ;;
  '(data, start, end_) <- range_filter data start end_ ;;
  (* remove timestamp *)
  end_ <- py_index (re_findall regs (py_str end_)) 0 ;;
  start <- py_index (re_findall regs (py_str start)) 0 ;;
  let t := "Oversikt over komulativt antall smitttede i " ++ county
           ++ ", fra " ++ start ++ " til " ++ end_ in
  Ok {| chart_data := data;
        chart_title := t;
        chart_mark := mark_line "green";
        encode_x := "Dato";
        encode_y := "Kumulativt antall";
        encode_tooltip := ["Dato"; "Kumulativt antall"];
        properties_width := 1120 |}.

Definition plot_both (county : string) (start end_ : option string)
  : result LayerChart :=
  reported_bar <- plot_reported_cases county start end_ ;;
  cumulative_line <- plot_cumulative_cases county start end_ ;;
  let county := if String.eqb county "allcounties" then "Norge" else county in
  let t := "Oversikt over komulativt antall smitttede og antall rapporterte smitttede i "
           ++ county in
  Ok (resolve_scale independent
        {| layer := [reported_bar; cumulative_line];
           layer_title := t;
           resolve_y := None |}).

End Plots.

(** ** A reference conversion and sample data

    [iso_to_datetime] converts the valid ISO calendar dates and refuses every
    other string; the examples run the plot functions with it. *)

Fixpoint num_of_digits (acc : nat) (s : string) : nat :=
  match s with
  | EmptyString => acc
  | String c s' => num_of_digits (10 * acc + (nat_of_ascii c - 48)) s'
  end.

Definition is_leap (y : nat) : bool :=
  ((y mod 4 =? 0)%nat && negb (y mod 100 =? 0)%nat) || (y mod 400 =? 0)%nat.

Definition days_in_month (y m : nat) : nat :=
  match m with
  | 1 | 3 | 5 | 7 | 8 | 10 | 12 => 31
  | 4 | 6 | 9 | 11 => 30
  | 2 => if is_leap y then 29 else 28
  | _ => 0
  end.

(** A string of shape [regs] whose month and day exist in the calendar. *)
Definition valid_iso (s : string) : bool :=
  let y := num_of_digits 0 (substring 0 4 s) in
  let m := num_of_digits 0 (substring 5 2 s) in
  let d := num_of_digits 0 (substring 8 2 s) in
  fullmatch regs s && (1 <=? d)%nat && (d <=? days_in_month y m)%nat.

(** A string of shape [dmy_shape] whose month and day exist in the calendar. *)
Definition valid_dmy (s : string) : bool :=
  let d := num_of_digits 0 (substring 0 2 s) in
  let m := num_of_digits 0 (substring 3 2 s) in
  let y := num_of_digits 0 (substring 6 4 s) in
  fullmatch dmy_shape s && (1 <=? d)%nat && (d <=? days_in_month y m)%nat.

Definition iso_to_datetime (s : string) : option Timestamp :=
  if valid_iso s then
    Some {| year := num_of_digits 0 (substring 0 4 s);
            month := num_of_digits 0 (substring 5 2 s);
            day := num_of_digits 0 (substring 8 2 s);
            seconds := 0 |}
  else None.

Definition date (y m d : nat) : Timestamp :=
  {| year := y; month := m; day := d; seconds := 0 |}.

Definition sample_frame : DataFrame :=
  [ {| Dato := date 2020 3 11; Nye_tilfeller := 3; Kumulativt_antall := 3 |};
    {| Dato := date 2020 3 12; Nye_tilfeller := 5; Kumulativt_antall := 8 |};
    {| Dato := date 2020 3 13; Nye_tilfeller := 4; Kumulativt_antall := 12 |} ].

(** The same rows in another file order. *)
Definition unsorted_frame : DataFrame :=
  [ {| Dato := date 2020 3 12; Nye_tilfeller := 5; Kumulativt_antall := 8 |};
    {| Dato := date 2020 3 11; Nye_tilfeller := 3; Kumulativt_antall := 3 |};
    {| Dato := date 2020 3 13; Nye_tilfeller := 4; Kumulativt_antall := 12 |} ].

(** A sample of [str.lower] beyond ASCII: besides A-Z it folds the capital
    letters of the Latin-1 supplement, U+00C0 to U+00DE without the
    multiplication sign, in their UTF-8 form. *)
Fixpoint sample_lower (s : string) : string :=
  match s with
  | EmptyString => EmptyString
  | String c s' =>
      match s' with
      | String d s'' =>
          let n := nat_of_ascii d in
          if ((nat_of_ascii c =? 195) && (128 <=? n) && (n <=? 158)
              && negb (n =? 151))%nat
          then String c (String (ascii_of_nat (n + 32)) (sample_lower s''))
          else String (lower_char c) (sample_lower s')
      | EmptyString => String (lower_char c) EmptyString
      end
  end.

(** A store with a file for Oslo, one for the whole country and one that
    holds a header and no rows; the text of a file stands for itself. *)
Definition sample_fs (file : string) : option string :=
  if String.eqb file "data_files_updated/antall-meldte-covid-19-oslo.csv"
  then Some "oslo rows"
  else if String.eqb file "data_files_updated/antall-meldte-covid-19-allcounties.csv"
  then Some "allcounties rows"
  else if String.eqb file "data_files_updated/antall-meldte-covid-19-tom.csv"
  then Some "no rows"
  else None.

Definition sample_parse_csv (text : string) : result DataFrame :=
  if String.eqb text "no rows" then Ok [] else Ok sample_frame.

(** A looser conversion, as pandas has it for dates written without
    padding: three runs of digits joined by dashes that name a calendar day,
    as in "2020-3-12". *)
Definition all_digits (s : string) : bool :=
  negb (String.eqb s "") && forallb is_digit (list_ascii_of_string s).

Definition loose_to_datetime (s : string) : option Timestamp :=
  match split "-" s with
  | [y; m; d] =>
      let yy := num_of_digits 0 y in
      let mm := num_of_digits 0 m in
      let dd := num_of_digits 0 d in
      if all_digits y && all_digits m && all_digits d
         && (1 <=? dd)%nat && (dd <=? days_in_month yy mm)%nat
      then Some (date yy mm dd)
      else None
  | _ => None
  end.

(** ** The routes

    [both] and [handle_date] build charts, save them under [templates/] and
    render the saved page.  What [Chart.save] and flask's [render_template]
    do to the world outside the program is not part of the source: the
    world is an abstract type, [save] may change it and may raise,
    [render_template] reads it and may raise. *)

(** A chart that [&] can stack. *)
Inductive AnyChart : Type :=
| AChart (c : Chart)
| ALayer (c : LayerChart).

Record VConcatChart : Type := mkVConcatChart {
  vconcat : list AnyChart
}.

(** [a & b] for two charts: [alt.vconcat(a, b)]. *)
Definition chart_and (a b : AnyChart) : VConcatChart :=
  {| vconcat := [a; b] |}.

(** [v & b] for a stack [v]: [b] is appended to the stack. *)
Definition vconcat_and (v : VConcatChart) (b : AnyChart) : VConcatChart :=
  {| vconcat := (vconcat v ++ [b])%list |}.

(** What [save] is called on. *)
Inductive Saved : Type :=
| SavedLayer (c : LayerChart)
| SavedVConcat (c : VConcatChart).

(** How a view function ends: it returns a body, lets an exception escape,
    or is stopped by a form key that is missing (werkzeug's
    [BadRequestKeyError], answered with status 400). *)
Inductive outcome : Type :=
| Returned (body : string)
| Uncaught (e : exn)
| BadRequestKeyError (key : string).

(** A computation that may change the world and may raise. *)
Definition io (world A : Type) : Type := world -> world * result A.

Definition io_bind {world A B : Type} (m : io world A) (k : A -> io world B)
  : io world B :=
  fun w =>
    match m w with
    | (w', Ok a) => k a w'
    | (w', Raise e) => (w', Raise e)
    end.

(** A call that leaves the world alone. *)
Definition lift {world A : Type} (r : result A) : io world A :=
  fun w => (w, r).

(** [try: body / except: handler], the bare [except] that catches all. *)
Definition try_except {world A : Type} (body handler : io world A) : io world A :=
  fun w =>
    match body w with
    | (w', Ok a) => (w', Ok a)
    | (w', Raise _) => handler w'
    end.

Notation "x <~ m ;; k" := (io_bind m (fun x => k))
  (at level 61, m at next level, right associativity).

Section Routes.

Variable unicode_lower : string -> string.
Variable fs : string -> option string.
Variable parse_csv : string -> result DataFrame.
Variable to_datetime : string -> option Timestamp.
Variable world : Type.
Variable save : Saved -> string -> world -> world * result unit.
Variable render_template : string -> world -> result string.

(** The route [/diagrams]. *)
Definition both : io world string :=
  cumulative_plot <~
    lift (plot_cumulative_cases unicode_lower fs parse_csv to_datetime "allcounties" None None) ;;
  reported_plot <~
    lift (plot_reported_cases unicode_lower fs parse_csv to_datetime "allcounties" None None) ;;
  both_plots <~
    lift (plot_both unicode_lower fs parse_csv to_datetime "allcounties" None None) ;;
  let all_plots :=
    vconcat_and (chart_and (ALayer both_plots) (AChart cumulative_plot))
                (AChart reported_plot) in
  _ <~ save (SavedVConcat all_plots) (os_path_join "templates" "webPlots.html") ;;
  fun w => (w, render_template "webPlots.html" w).

(** The route [/handle_date]; [form] is [request.form]. *)
Definition handle_date (form : string -> option string) (w : world)
  : world * outcome :=
  match form "start_date" with
  | None => (w, BadRequestKeyError "start_date")
  | Some start_date =>
      match form "end_date" with
      | None => (w, BadRequestKeyError "end_date")
      | Some end_date =>
          match form "all_counties" with
          | None => (w, BadRequestKeyError "all_counties")
          | Some county =>
              let view :=
                try_except
                  (plot <~
                     lift (plot_both unicode_lower fs parse_csv to_datetime county
                                     (Some start_date) (Some end_date)) ;;
                   _ <~ save (SavedLayer plot)
                             (os_path_join "templates" "webPlots2.html") ;;
                   fun w => (w, render_template "webPlots2.html" w))
                  (lift (Ok "Feil input, prøv igjen")) in
              match view w with
              | (w', Ok body) => (w', Returned body)
              | (w', Raise e) => (w', Uncaught e)
              end
          end
      end
  end.

End Routes.

(** A world for the examples: the list of what was saved, newest first;
    a page renders when a chart was saved under its name. *)
Definition sample_world : Type := list (string * Saved).

Definition sample_save (c : Saved) (path : string) (w : sample_world)
  : sample_world * result unit :=
  ((path, c) :: w, Ok tt).

Definition sample_render_template (name : string) (w : sample_world)
  : result string :=
  if existsb (fun x => String.eqb (fst x) (os_path_join "templates" name)) w
  then Ok ("<" ++ name ++ ">")
  else Raise FileNotFoundError.

(** A form filled in for Oslo, 12 to 13 March 2020. *)
Definition oslo_form (key : string) : option string :=
  if String.eqb key "start_date" then Some "12/03/2020"
  else if String.eqb key "end_date" then Some "13/03/2020"
  else if String.eqb key "all_counties" then Some "Oslo"
  else None.

(** A form whose start date was left blank. *)
Definition blank_start_form (key : string) : option string :=
  if String.eqb key "start_date" then Some ""
  else if String.eqb key "end_date" then Some "13/03/2020"
  else if String.eqb key "all_counties" then Some "Oslo"
  else None.

(** * Properties *)

(** ** Running the definitions *)

Example fix_dates_dmy : fix_dates "29/03/2020" = Ok "2020-03-29".
Proof. reflexivity. Qed.

Example fix_dates_iso : fix_dates "2020-03-29" = Ok "2020-03-29".
Proof. reflexivity. Qed.

Example fix_dates_two_fields : fix_dates "03/2020" = Raise IndexError.
Proof. reflexivity. Qed.

Example fix_dates_four_fields : fix_dates "1/2/3/4" = Ok "3-2-1".
Proof. reflexivity. Qed.

Example re_findall_timestamp :
  re_findall regs "2020-03-12 00:00:00" = ["2020-03-12"].
Proof. reflexivity. Qed.

Example re_findall_two :
  re_findall regs "x2020-03-122021-04-05" = ["2020-03-12"; "2021-04-05"].
Proof. reflexivity. Qed.

Example str_timestamp_sample :
  str_timestamp (date 2020 3 12) = "2020-03-12 00:00:00".
Proof. reflexivity. Qed.

Example split_empty : split "/" "" = [""].
Proof. reflexivity. Qed.

Example split_trailing : split "/" "a//b/" = ["a"; ""; "b"; ""].
Proof. reflexivity. Qed.

(** ** The error monad *)

Lemma bind_Ok_inv {A B : Type} (m : result A) (k : A -> result B) (b : B) :
  bind m k = Ok b -> exists a, m = Ok a /\ k a = Ok b.
Proof.
  destruct m as [a|e]; simpl; intros H; [eauto | discriminate].
Qed.

(** ** Indexing *)

Lemma py_index_nil {A : Type} (i : Z) : py_index (@nil A) i = Raise IndexError.
Proof.
  unfold py_index; simpl.
  destruct (i <? 0)%Z eqn:Hi.
  - rewrite Z.add_0_r.
    apply Z.ltb_lt in Hi.
    destruct (0 <=? i)%Z eqn:H0; [apply Z.leb_le in H0; lia | reflexivity].
  - destruct (0 <=? i)%Z; simpl; [|reflexivity].
    destruct (i <? 0)%Z; [discriminate | reflexivity].
Qed.

Lemma py_index_0_cons {A : Type} (x : A) (l : list A) :
  py_index (x :: l) 0 = Ok x.
Proof.
  unfold py_index.
  replace (0 <? 0)%Z with false by reflexivity.
  replace (0 <=? 0)%Z with true by reflexivity.
  destruct (0 <? Z.of_nat (List.length (x :: l)))%Z eqn:H; [reflexivity|].
  apply Z.ltb_ge in H. simpl List.length in H. lia.
Qed.

Lemma py_index_last {A : Type} (l : list A) (x : A) :
  py_index (l ++ [x])%list (-1) = Ok x.
Proof.
  unfold py_index.
  replace (-1 <? 0)%Z with true by reflexivity.
  rewrite length_app; simpl List.length.
  replace (-1 + Z.of_nat (List.length l + 1))%Z with (Z.of_nat (List.length l)) by lia.
  destruct (0 <=? Z.of_nat (List.length l))%Z eqn:H0;
    [|apply Z.leb_gt in H0; lia].
  destruct (Z.of_nat (List.length l) <? Z.of_nat (List.length l + 1))%Z eqn:H1;
    [|apply Z.ltb_ge in H1; lia].
  simpl. rewrite Nat2Z.id.
  rewrite nth_error_app2 by lia.
  rewrite Nat.sub_diag. reflexivity.
Qed.

Lemma py_index_Ok_In {A : Type} (l : list A) (i : Z) (x : A) :
  py_index l i = Ok x -> In x l.
Proof.
  unfold py_index.
  destruct (_ && _)%bool; [|discriminate].
  destruct (nth_error l _) eqn:H; [|discriminate].
  intros E; injection E as <-. eapply nth_error_In; eauto.
Qed.

(** ** Substrings and characters *)

Lemma str_in_cons (sub : string) (c : ascii) (s : string) :
  str_in sub s = true -> str_in sub (String c s) = true.
Proof.
  intros H. simpl. rewrite H. apply orb_true_r.
Qed.

Lemma str_in_startswith (sub s : string) :
  startswith sub s = true -> str_in sub s = true.
Proof.
  intros H. destruct s; simpl in *; rewrite H; reflexivity.
Qed.

Lemma startswith_app (sub rest : string) : startswith sub (sub ++ rest) = true.
Proof.
  induction sub as [|a sub IH]; simpl; [reflexivity|].
  rewrite Ascii.eqb_refl. exact IH.
Qed.

Lemma str_in_app_r (sub a b : string) :
  str_in sub b = true -> str_in sub (a ++ b) = true.
Proof.
  intros H. induction a as [|c a IH]; simpl; [exact H|].
  change (append a b) with (a ++ b). rewrite IH. apply orb_true_r.
Qed.

Lemma startswith_app_l (sub a b : string) :
  startswith sub a = true -> startswith sub (a ++ b) = true.
Proof.
  revert a. induction sub as [|x sub IH]; intros a H; [reflexivity|].
  destruct a as [|y a]; simpl in H; [discriminate|].
  apply andb_true_iff in H as [Hxy H]. simpl. rewrite Hxy. apply IH, H.
Qed.

Lemma str_in_app_l (sub a b : string) :
  str_in sub a = true -> str_in sub (a ++ b) = true.
Proof.
  induction a as [|y a IH]; intros H.
  - simpl in H. rewrite orb_false_r in H.
    destruct sub; [destruct b; reflexivity | discriminate].
  - cbn [str_in] in H. apply orb_true_iff in H as [H|H].
    + apply str_in_startswith, startswith_app_l, H.
    + change (String y a ++ b) with (String y (a ++ b)).
      apply str_in_cons, IH, H.
Qed.

Lemma str_in_mid (sub a b : string) : str_in sub (a ++ sub ++ b) = true.
Proof.
  apply str_in_app_r, str_in_startswith, startswith_app.
Qed.

(** [c in s] for a character [c]. *)
Lemma str_in_char_cons (c x : ascii) (s : string) :
  str_in (String c "") (String x s) = Ascii.eqb c x || str_in (String c "") s.
Proof.
  simpl. rewrite andb_true_r. reflexivity.
Qed.

Lemma str_in_char_app (c : ascii) (a b : string) :
  str_in (String c "") (a ++ b) =
  str_in (String c "") a || str_in (String c "") b.
Proof.
  induction a as [|x a IH].
  - simpl. reflexivity.
  - change (String x a ++ b) with (String x (a ++ b)).
    rewrite !str_in_char_cons, IH. apply orb_assoc.
Qed.

Lemma startswith_char (sub s : string) (c : ascii) :
  startswith sub s = true ->
  str_in (String c "") sub = true -> str_in (String c "") s = true.
Proof.
  revert s. induction sub as [|a sub IH]; intros s Hp Hc.
  - simpl in Hc. discriminate.
  - destruct s as [|b s]; simpl in Hp; [discriminate|].
    apply andb_true_iff in Hp as [Hab Hp].
    apply Ascii.eqb_eq in Hab; subst b.
    rewrite str_in_char_cons in *.
    apply orb_true_iff in Hc as [Hc|Hc].
    + rewrite Hc. reflexivity.
    + rewrite (IH s Hp Hc). apply orb_true_r.
Qed.

(** Every character of a substring occurs in the string. *)
Lemma str_in_char (sub s : string) (c : ascii) :
  str_in sub s = true ->
  str_in (String c "") sub = true -> str_in (String c "") s = true.
Proof.
  intros H Hc. induction s as [|b s IH].
  - simpl in H. rewrite orb_false_r in H.
    eapply startswith_char; eauto.
  - cbn [str_in] in H. apply orb_true_iff in H as [H|H].
    + eapply startswith_char; eauto.
    + rewrite str_in_char_cons, (IH H). apply orb_true_r.
Qed.

Lemma str_in_missing_char (sub s : string) (c : ascii) :
  str_in (String c "") sub = true -> str_in (String c "") s = false ->
  str_in sub s = false.
Proof.
  intros Hc Hs. destruct (str_in sub s) eqn:H; [|reflexivity].
  rewrite (str_in_char _ _ _ H Hc) in Hs. discriminate.
Qed.

(** A substring whose first character is missing from [a] starts in [b]. *)
Lemma str_in_skip (c : ascii) (sub a b : string) :
  str_in (String c "") a = false ->
  str_in (String c sub) (a ++ b) = str_in (String c sub) b.
Proof.
  induction a as [|x a IH]; intros H; [reflexivity|].
  rewrite str_in_char_cons in H. apply orb_false_iff in H as [Hx Ha].
  change (String x a ++ b) with (String x (a ++ b)).
  cbn [str_in startswith]. rewrite Hx. simpl. apply IH, Ha.
Qed.

Lemma append_inv_head (a x y : string) : a ++ x = a ++ y -> x = y.
Proof.
  induction a as [|c a IH]; simpl; intros H; [exact H|].
  injection H as H. apply IH, H.
Qed.

(** ** Splitting *)

Lemma split_no_sep (sep : ascii) (s : string) :
  str_in (String sep "") s = false -> split sep s = [s].
Proof.
  induction s as [|c s IH]; intros H; [reflexivity|].
  rewrite str_in_char_cons in H. apply orb_false_iff in H as [Hc Hs].
  simpl. rewrite Ascii.eqb_sym, Hc, (IH Hs). reflexivity.
Qed.

Lemma split_app_sep (sep : ascii) (a b : string) :
  str_in (String sep "") a = false ->
  split sep (a ++ String sep b) = a :: split sep b.
Proof.
  induction a as [|c a IH]; intros H.
  - simpl. rewrite Ascii.eqb_refl. reflexivity.
  - rewrite str_in_char_cons in H. apply orb_false_iff in H as [Hc Ha].
    change (String c a ++ String sep b) with (String c (a ++ String sep b)).
    cbn [split]. rewrite Ascii.eqb_sym, Hc, (IH Ha). reflexivity.
Qed.

Lemma split_not_nil (sep : ascii) (s : string) : split sep s <> [].
Proof.
  induction s as [|c s IH]; simpl; [discriminate|].
  destruct (Ascii.eqb c sep); [discriminate|].
  destruct (split sep s); [contradiction | discriminate].
Qed.

(** ** Digits *)

Lemma is_digit_neq (x c : ascii) :
  is_digit c = true -> is_digit x = false -> Ascii.eqb x c = false.
Proof.
  intros Hc Hx. destruct (Ascii.eqb x c) eqn:E; [|reflexivity].
  apply Ascii.eqb_eq in E; subst. congruence.
Qed.

Lemma is_digit_digit_char (n : nat) : is_digit (digit_char n) = true.
Proof.
  unfold digit_char.
  assert (H : n mod 10 < 10) by (apply Nat.mod_upper_bound; discriminate).
  generalize dependent (n mod 10). intros k H.
  do 10 (destruct k as [|k]; [reflexivity|]).
  lia.
Qed.

(** ** Matching *)

Lemma match_prefix_cons (k : cls) (pat : list cls) (s m : string) :
  match_prefix (k :: pat) s = Some m ->
  exists c s' m',
    s = String c s' /\ cls_match k c = true /\
    match_prefix pat s' = Some m' /\ m = String c m'.
Proof.
  destruct s as [|c s']; simpl; [discriminate|].
  destruct (cls_match k c) eqn:Hk; [|discriminate].
  destruct (match_prefix pat s') as [m'|] eqn:Hm; [|discriminate].
  intros E; injection E as <-. exists c, s', m'. auto.
Qed.

Lemma match_prefix_nil (s m : string) :
  match_prefix [] s = Some m -> m = "".
Proof. simpl. congruence. Qed.

Lemma fullmatch_match_prefix (pat : list cls) (s : string) :
  fullmatch pat s = true -> match_prefix pat s = Some s.
Proof.
  unfold fullmatch. destruct (match_prefix pat s) as [m|]; [|discriminate].
  intros H. apply String.eqb_eq in H. congruence.
Qed.

(** Every character of a match belongs to a class of the pattern. *)
Lemma match_prefix_chars (pat : list cls) (s m : string) (c : ascii) :
  match_prefix pat s = Some m ->
  str_in (String c "") m = true ->
  exists k, In k pat /\ cls_match k c = true.
Proof.
  revert s m. induction pat as [|k pat IH]; intros s m Hm Hc.
  - apply match_prefix_nil in Hm; subst. discriminate.
  - apply match_prefix_cons in Hm as (x & s' & m' & -> & Hk & Hm & ->).
    rewrite str_in_char_cons in Hc. apply orb_true_iff in Hc as [Hc|Hc].
    + apply Ascii.eqb_eq in Hc; subst x. exists k. simpl. auto.
    + destruct (IH _ _ Hm Hc) as (k' & Hin & Hk'). exists k'. simpl. auto.
Qed.

(** A match is a prefix of the text. *)
Lemma match_prefix_app (pat : list cls) (s m : string) :
  match_prefix pat s = Some m -> exists rest, s = m ++ rest.
Proof.
  revert s m. induction pat as [|k pat IH]; intros s m Hm.
  - apply match_prefix_nil in Hm; subst. exists s. reflexivity.
  - apply match_prefix_cons in Hm as (x & s' & m' & -> & _ & Hm & ->).
    destruct (IH _ _ Hm) as (rest & ->). exists rest. reflexivity.
Qed.

(** A match at the start of the text is the first match [re.findall] finds. *)
Lemma re_findall_first (pat : list cls) (s m : string) :
  match_prefix pat s = Some m -> m <> "" ->
  exists rest, re_findall pat s = m :: rest.
Proof.
  unfold re_findall. intros Hm Hne. destruct s as [|c s'].
  - destruct pat; simpl in Hm; [|discriminate].
    injection Hm as <-. contradiction.
  - cbn [findall_from]. rewrite Hm. eauto.
Qed.

(** Every match [re.findall] returns is a match of the pattern somewhere. *)
Lemma findall_from_In (pat : list cls) (s : string) :
  forall skip m, In m (findall_from pat skip s) ->
                 exists s', match_prefix pat s' = Some m.
Proof.
  induction s as [|c s IH]; intros skip m H; [contradiction|].
  cbn [findall_from] in H. destruct skip as [|k].
  - destruct (match_prefix pat (String c s)) as [m0|] eqn:Hm.
    + destruct H as [<-|H]; eauto.
    + eauto.
  - eauto.
Qed.

(** The matches of [regs] hold digits and dashes only. *)
Lemma regs_match_chars (s m : string) (c : ascii) :
  match_prefix regs s = Some m ->
  is_digit c = false -> Ascii.eqb "-" c = false ->
  str_in (String c "") m = false.
Proof.
  intros Hm Hd Hm'. destruct (str_in (String c "") m) eqn:Hc; [|reflexivity].
  destruct (match_prefix_chars _ _ _ _ Hm Hc) as (k & Hin & Hk).
  unfold regs in Hin. simpl in Hin.
  repeat (destruct Hin as [<-|Hin]; [cbn [cls_match] in Hk; congruence|]).
  contradiction.
Qed.

Lemma regs_isoformat (t : Timestamp) (rest : string) :
  match_prefix regs (isoformat t ++ rest) = Some (isoformat t).
Proof.
  unfold isoformat, pad4, pad2, regs. cbn [append match_prefix cls_match].
  rewrite !is_digit_digit_char, !Ascii.eqb_refl. reflexivity.
Qed.

Lemma isoformat_not_empty (t : Timestamp) : isoformat t <> "".
Proof. unfold isoformat, pad4. simpl. discriminate. Qed.

(** [re.findall(regs, str(t))[0]] is the date of [t]. *)
Lemma findall_str_timestamp (t : Timestamp) :
  py_index (re_findall regs (str_timestamp t)) 0 = Ok (isoformat t).
Proof.
  unfold str_timestamp.
  match goal with
  | |- context [re_findall regs (isoformat t ++ ?r)] =>
      destruct (re_findall_first regs _ _ (regs_isoformat t r)
                                 (isoformat_not_empty t)) as (rest & ->)
  end.
  apply py_index_0_cons.
Qed.

(** A string of shape [regs] is its own first match. *)
Lemma findall_fullmatch (s : string) :
  fullmatch regs s = true -> py_index (re_findall regs s) 0 = Ok s.
Proof.
  intros H. apply fullmatch_match_prefix in H.
  assert (Hne : s <> "") by (intros ->; discriminate).
  destruct (re_findall_first regs _ _ H Hne) as (rest & ->).
  apply py_index_0_cons.
Qed.

Ltac match_step H :=
  let c := fresh "c" in
  let s' := fresh "s" in
  let m' := fresh "m" in
  let Hs := fresh "Hs" in
  let Hk := fresh "Hk" in
  let Hm := fresh "Hm" in
  apply match_prefix_cons in H as (c & s' & m' & Hs & Hk & H & Hm);
  cbn [cls_match] in Hk.

(** A string of shape [regs] holds a dash. *)
Lemma regs_has_dash (s : string) :
  fullmatch regs s = true -> str_in "-" s = true.
Proof.
  intros H. apply fullmatch_match_prefix in H. unfold regs in H.
  do 5 match_step H. subst.
  apply Ascii.eqb_eq in Hk3. subst.
  do 4 apply str_in_cons. reflexivity.
Qed.

(** The fields of a string of shape [dmy_shape]. *)
Lemma dmy_shape_fields (s : string) :
  fullmatch dmy_shape s = true ->
  exists d1 d2 m1 m2 y1 y2 y3 y4,
    s = String d1 (String d2 (String "/" (String m1 (String m2 (String "/"
          (String y1 (String y2 (String y3 (String y4 ""))))))))) /\
    Forall (fun c => is_digit c = true) [d1; d2; m1; m2; y1; y2; y3; y4].
Proof.
  intros H. apply fullmatch_match_prefix in H. unfold dmy_shape in H.
  do 10 match_step H. apply match_prefix_nil in H. subst.
  apply Ascii.eqb_eq in Hk1, Hk4. subst.
  assert (s9 = "") as -> by congruence.
  do 8 eexists. split; [reflexivity|].
  repeat constructor; assumption.
Qed.

(** ** fix_dates *)

Lemma py_index_nat {A : Type} (l : list A) (n : nat) :
  py_index l (Z.of_nat n) =
  match nth_error l n with
  | Some x => Ok x
  | None => Raise IndexError
  end.
Proof.
  unfold py_index.
  destruct (Z.of_nat n <? 0)%Z eqn:Hn; [apply Z.ltb_lt in Hn; lia|].
  destruct (0 <=? Z.of_nat n)%Z eqn:H0; [|apply Z.leb_gt in H0; lia].
  rewrite Nat2Z.id. simpl.
  destruct (Z.of_nat n <? Z.of_nat (List.length l))%Z eqn:H1.
  - reflexivity.
  - apply Z.ltb_ge in H1.
    assert (H2 : List.length l <= n) by lia.
    apply nth_error_None in H2. rewrite H2. reflexivity.
Qed.

Lemma fix_dates_dash (s : string) : str_in "-" s = true -> fix_dates s = Ok s.
Proof. unfold fix_dates. intros ->. reflexivity. Qed.

Lemma fix_dates_no_dash (s : string) :
  str_in "-" s = false ->
  fix_dates s =
  match split "/" s with
  | d :: m :: y :: _ => Ok (y ++ "-" ++ m ++ "-" ++ d)
  | _ => Raise IndexError
  end.
Proof.
  unfold fix_dates. intros ->.
  change 2%Z with (Z.of_nat 2). change 1%Z with (Z.of_nat 1).
  change 0%Z with (Z.of_nat 0). cbv zeta. rewrite !py_index_nat.
  destruct (split "/" s) as [|d [|m [|y rest]]]; reflexivity.
Qed.

(** Three fields that hold neither a dash nor a slash are put in the order
    year, month, day. *)
Lemma fix_dates_fields (dd mm yyyy : string) :
  str_in "-" dd = false -> str_in "/" dd = false ->
  str_in "-" mm = false -> str_in "/" mm = false ->
  str_in "-" yyyy = false -> str_in "/" yyyy = false ->
  fix_dates (dd ++ "/" ++ mm ++ "/" ++ yyyy) = Ok (yyyy ++ "-" ++ mm ++ "-" ++ dd).
Proof.
  intros Hd1 Hd2 Hm1 Hm2 Hy1 Hy2.
  rewrite fix_dates_no_dash.
  - change ("/" ++ mm ++ "/" ++ yyyy) with (String "/" (mm ++ String "/" yyyy)).
    rewrite (split_app_sep _ _ _ Hd2), (split_app_sep _ _ _ Hm2),
      (split_no_sep _ _ Hy2).
    reflexivity.
  - rewrite !str_in_char_app, Hd1, Hm1, Hy1. reflexivity.
Qed.

Lemma digit_no_dash (c : ascii) : is_digit c = true -> Ascii.eqb "-" c = false.
Proof. intros H. apply is_digit_neq; [exact H | reflexivity]. Qed.

Lemma digit_no_slash (c : ascii) : is_digit c = true -> Ascii.eqb "/" c = false.
Proof. intros H. apply is_digit_neq; [exact H | reflexivity]. Qed.

(** A string of shape [dmy_shape] is reordered field by field, and the
    result has shape [regs]. *)
Lemma fix_dates_dmy_shape (s : string) :
  fullmatch dmy_shape s = true ->
  fix_dates s =
    Ok (substring 6 4 s ++ "-" ++ substring 3 2 s ++ "-" ++ substring 0 2 s) /\
  fullmatch regs
    (substring 6 4 s ++ "-" ++ substring 3 2 s ++ "-" ++ substring 0 2 s) = true.
Proof.
  intros H.
  destruct (dmy_shape_fields s H)
    as (d1 & d2 & m1 & m2 & y1 & y2 & y3 & y4 & -> & Hall).
  repeat match goal with
         | H : Forall _ (_ :: _) |- _ => inversion H; subst; clear H
         end.
  split.
  - cbn [substring].
    apply (fix_dates_fields (String d1 (String d2 "")) (String m1 (String m2 ""))
             (String y1 (String y2 (String y3 (String y4 "")))));
      rewrite ?str_in_char_cons, ?digit_no_dash, ?digit_no_slash by assumption;
      reflexivity.
  - cbn [substring append]. unfold fullmatch, regs.
    cbn [match_prefix cls_match].
    repeat match goal with
           | H : is_digit _ = true |- _ => rewrite H; clear H
           end.
    rewrite !Ascii.eqb_refl. apply String.eqb_refl.
Qed.

Lemma valid_iso_shape (s : string) : valid_iso s = true -> fullmatch regs s = true.
Proof.
  unfold valid_iso. intros H.
  apply andb_true_iff in H as [H _]. apply andb_true_iff in H as [H _]. exact H.
Qed.

Lemma valid_dmy_shape (s : string) :
  valid_dmy s = true -> fullmatch dmy_shape s = true.
Proof.
  unfold valid_dmy. intros H.
  apply andb_true_iff in H as [H _]. apply andb_true_iff in H as [H _]. exact H.
Qed.

(** C5.  [fix_dates] returns a valid ISO date string unchanged, and turns a
    valid day-first string dd/mm/yyyy into yyyy-mm-dd: the year, month and
    day fields in that order, joined by dashes, which is a valid ISO date
    string again. *)
Theorem fix_dates_valid_inputs :
  (forall d : string, valid_iso d = true -> fix_dates d = Ok d) /\
  (forall s : string, valid_dmy s = true ->
     let iso := substring 6 4 s ++ "-" ++ substring 3 2 s ++ "-" ++ substring 0 2 s in
     fix_dates s = Ok iso /\ valid_iso iso = true).
Proof.
  split.
  - intros d H. apply fix_dates_dash, regs_has_dash, valid_iso_shape, H.
  - intros s H iso. subst iso.
    pose proof (fix_dates_dmy_shape s (valid_dmy_shape s H)) as [Hfix Hshape].
    split; [exact Hfix|].
    unfold valid_iso. rewrite Hshape.
    destruct (dmy_shape_fields s (valid_dmy_shape s H))
      as (d1 & d2 & m1 & m2 & y1 & y2 & y3 & y4 & -> & _).
    unfold valid_dmy in H.
    apply andb_true_iff in H as [H Hd]. apply andb_true_iff in H as [_ H1].
    cbn [substring append] in *. rewrite H1, Hd. reflexivity.
Qed.

Lemma fix_dates_valid_inputs_witness :
  fix_dates "2020-03-29" = Ok "2020-03-29" /\
  fix_dates "29/03/2020" = Ok "2020-03-29".
Proof.
  split.
  - apply (proj1 fix_dates_valid_inputs "2020-03-29"). reflexivity.
  - apply (proj2 fix_dates_valid_inputs "29/03/2020"). reflexivity.
Defined.

(** C4, as the code has it.  [fix_dates] raises exactly on a string that
    holds no dash and fewer than three fields between slashes, and what it
    raises is [IndexError]; a string that holds a dash is returned as it is,
    and any other string gives its first three fields in reverse order. *)
Theorem fix_dates_raises (s : string) :
  (fix_dates s = Raise IndexError <->
   str_in "-" s = false /\ List.length (split "/" s) < 3) /\
  (forall e, fix_dates s = Raise e -> e = IndexError) /\
  (str_in "-" s = true -> fix_dates s = Ok s) /\
  (str_in "-" s = false -> 3 <= List.length (split "/" s) ->
   exists d m y rest,
     split "/" s = d :: m :: y :: rest /\
     fix_dates s = Ok (y ++ "-" ++ m ++ "-" ++ d)).
Proof.
  destruct (str_in "-" s) eqn:Hdash.
  - rewrite (fix_dates_dash s Hdash).
    repeat split; try discriminate; try reflexivity.
    intros [H _]; discriminate.
  - rewrite (fix_dates_no_dash s Hdash).
    destruct (split "/" s) as [|d [|m [|y rest]]]; simpl.
    all: repeat split; try discriminate; try reflexivity; try lia;
      try (intros e E; injection E as <-; reflexivity);
      try (intros [_ H]; lia).
    intros _ _. exists d, m, y, rest. split; reflexivity.
Qed.

Lemma fix_dates_raises_witness :
  fix_dates "03/2020" = Raise IndexError /\
  fix_dates "2020-13-40" = Ok "2020-13-40".
Proof.
  split.
  - apply (proj1 (fix_dates_raises "03/2020")). split; [reflexivity|].
    simpl. lia.
  - apply (proj1 (proj2 (proj2 (fix_dates_raises "2020-13-40")))). reflexivity.
Defined.

(** C4 fails on the code: "2020-13-40" is neither a valid ISO date nor a
    day-first date, and [fix_dates] returns it without raising. *)
Lemma fix_dates_accepts_invalid_date :
  valid_iso "2020-13-40" = false /\
  valid_dmy "2020-13-40" = false /\
  fullmatch dmy_shape "2020-13-40" = false /\
  fix_dates "2020-13-40" = Ok "2020-13-40" /\
  ~ (exists e, fix_dates "2020-13-40" = Raise e).
Proof.
  repeat split; try reflexivity.
  intros [e H]. discriminate.
Qed.

(** ** The order of timestamps *)

Lemma ts_leb_spec (a b : Timestamp) :
  ts_leb a b = true <->
  year a < year b \/
  (year a = year b /\
   (month a < month b \/
    (month a = month b /\
     (day a < day b \/ (day a = day b /\ seconds a <= seconds b))))).
Proof.
  unfold ts_leb.
  repeat (rewrite orb_true_iff || rewrite andb_true_iff).
  rewrite !Nat.ltb_lt, !Nat.eqb_eq, Nat.leb_le.
  tauto.
Qed.

Lemma ts_leb_refl (a : Timestamp) : ts_leb a a = true.
Proof. apply ts_leb_spec. lia. Qed.

Lemma ts_leb_trans (a b c : Timestamp) :
  ts_leb a b = true -> ts_leb b c = true -> ts_leb a c = true.
Proof. rewrite !ts_leb_spec. lia. Qed.

Lemma ts_leb_total (a b : Timestamp) : ts_leb a b = true \/ ts_leb b a = true.
Proof. rewrite !ts_leb_spec. lia. Qed.

Lemma ts_leb_antisym (a b : Timestamp) :
  ts_leb a b = true -> ts_leb b a = true -> a = b.
Proof.
  rewrite !ts_leb_spec. destruct a, b; simpl. intros H1 H2.
  f_equal; lia.
Qed.

Lemma ts_leb_false (a b : Timestamp) : ts_leb a b = false -> ts_leb b a = true.
Proof.
  intros H. destruct (ts_leb_total a b) as [H'|H']; [congruence | exact H'].
Qed.

(** ** Sorted frames and their slices *)

Lemma is_sorted_tail (r : Row) (data : DataFrame) :
  is_sorted (r :: data) = true -> is_sorted data = true.
Proof.
  destruct data as [|r' data]; [reflexivity|].
  cbn [is_sorted]. intros H. apply andb_true_iff in H as [_ H]. exact H.
Qed.

(** In a sorted frame no date is before the first. *)
Lemma is_sorted_head (r : Row) (data : DataFrame) :
  is_sorted (r :: data) = true ->
  Forall (fun x => ts_leb (Dato r) (Dato x) = true) data.
Proof.
  revert r. induction data as [|r' data IH]; intros r H; [constructor|].
  pose proof H as H'. cbn [is_sorted] in H'.
  apply andb_true_iff in H' as [Hr Hs].
  constructor; [exact Hr|].
  apply (Forall_impl _ (P := fun x => ts_leb (Dato r') (Dato x) = true)).
  - intros x Hx. eapply ts_leb_trans; eauto.
  - apply IH, Hs.
Qed.

Lemma filter_all {A : Type} (p : A -> bool) (l : list A) :
  Forall (fun x => p x = true) l -> filter p l = l.
Proof.
  induction 1 as [|x l Hx _ IH]; simpl; [reflexivity|].
  rewrite Hx, IH. reflexivity.
Qed.

Lemma filter_none {A : Type} (p : A -> bool) (l : list A) :
  Forall (fun x => p x = false) l -> filter p l = [].
Proof.
  induction 1 as [|x l Hx _ IH]; simpl; [reflexivity|].
  rewrite Hx, IH. reflexivity.
Qed.

(** [data[data["Dato"] >= t]] of a sorted frame is what follows a run of
    earlier rows. *)
Lemma filter_ge_suffix (t : Timestamp) (data : DataFrame) :
  is_sorted data = true ->
  exists before,
    data = (before ++ filter (fun r => ts_leb t (Dato r)) data)%list.
Proof.
  induction data as [|r data IH]; intros Hs.
  - exists []. reflexivity.
  - destruct (ts_leb t (Dato r)) eqn:Hr.
    + exists []. cbn [app]. symmetry.
      apply (filter_all (fun x => ts_leb t (Dato x))). constructor; [exact Hr|].
      apply (Forall_impl _ (P := fun x => ts_leb (Dato r) (Dato x) = true)).
      * intros x Hx. eapply ts_leb_trans; eauto.
      * apply is_sorted_head, Hs.
    + destruct (IH (is_sorted_tail _ _ Hs)) as (before & E).
      exists (r :: before). simpl. rewrite Hr. simpl. f_equal. exact E.
Qed.

(** [data[data["Dato"] <= t]] of a sorted frame is what precedes a run of
    later rows. *)
Lemma filter_le_prefix (t : Timestamp) (data : DataFrame) :
  is_sorted data = true ->
  exists after,
    data = (filter (fun r => ts_leb (Dato r) t) data ++ after)%list.
Proof.
  induction data as [|r data IH]; intros Hs.
  - exists []. reflexivity.
  - destruct (ts_leb (Dato r) t) eqn:Hr.
    + destruct (IH (is_sorted_tail _ _ Hs)) as (after & E).
      exists after. simpl. rewrite Hr. simpl. f_equal. exact E.
    + exists (r :: data). simpl. rewrite Hr.
      rewrite filter_none; [reflexivity|].
      apply (Forall_impl _ (P := fun x => ts_leb (Dato r) (Dato x) = true)).
      * intros x Hx. destruct (ts_leb (Dato x) t) eqn:Hx'; [|reflexivity].
        rewrite (ts_leb_trans _ _ _ Hx Hx') in Hr. discriminate.
      * apply is_sorted_head, Hs.
Qed.

Lemma is_sorted_app_r (a b : DataFrame) :
  is_sorted (a ++ b)%list = true -> is_sorted b = true.
Proof.
  induction a as [|r a IH]; intros H; [exact H|].
  apply IH. eapply is_sorted_tail. exact H.
Qed.

Lemma filter_filter {A : Type} (p q : A -> bool) (l : list A) :
  filter q (filter p l) = filter (fun x => p x && q x) l.
Proof.
  induction l as [|x l IH]; simpl; [reflexivity|].
  destruct (p x); simpl; [destruct (q x)|]; rewrite ?IH; reflexivity.
Qed.

(** The two selections of a sorted frame leave a run of consecutive rows. *)
Lemma filter_range_contiguous (ts te : Timestamp) (data : DataFrame) :
  is_sorted data = true ->
  exists before after,
    data = (before
            ++ filter (fun r => ts_leb ts (Dato r) && ts_leb (Dato r) te) data
            ++ after)%list.
Proof.
  intros Hs. rewrite <- filter_filter.
  destruct (filter_ge_suffix ts data Hs) as (before & E).
  assert (Hs' : is_sorted (filter (fun r => ts_leb ts (Dato r)) data) = true).
  { apply (is_sorted_app_r before). rewrite <- E. exact Hs. }
  destruct (filter_le_prefix te _ Hs') as (after & E').
  exists before, after. rewrite <- E'. exact E.
Qed.

(** ** Smallest and largest date *)

Lemma fold_min_spec (rest : DataFrame) (m0 : Timestamp) :
  let m := fold_left (fun m x => if ts_leb (Dato x) m then Dato x else m) rest m0 in
  ts_leb m m0 = true /\
  Forall (fun x => ts_leb m (Dato x) = true) rest /\
  (m = m0 \/ exists x, In x rest /\ m = Dato x).
Proof.
  revert m0. induction rest as [|r rest IH]; intros m0; simpl.
  - split; [apply ts_leb_refl|]. split; [constructor | left; reflexivity].
  - destruct (ts_leb (Dato r) m0) eqn:Hr.
    + destruct (IH (Dato r)) as (H1 & H2 & H3).
      split; [eapply ts_leb_trans; eauto|].
      split; [constructor; assumption|].
      right. destruct H3 as [H3|(x & Hx & H3)]; eauto.
    + destruct (IH m0) as (H1 & H2 & H3).
      split; [exact H1|].
      split.
      * constructor; [|exact H2].
        eapply ts_leb_trans; [exact H1 | apply ts_leb_false, Hr].
      * destruct H3 as [H3|(x & Hx & H3)]; eauto.
Qed.

Lemma fold_max_spec (rest : DataFrame) (m0 : Timestamp) :
  let m := fold_left (fun m x => if ts_leb m (Dato x) then Dato x else m) rest m0 in
  ts_leb m0 m = true /\
  Forall (fun x => ts_leb (Dato x) m = true) rest /\
  (m = m0 \/ exists x, In x rest /\ m = Dato x).
Proof.
  revert m0. induction rest as [|r rest IH]; intros m0; simpl.
  - split; [apply ts_leb_refl|]. split; [constructor | left; reflexivity].
  - destruct (ts_leb m0 (Dato r)) eqn:Hr.
    + destruct (IH (Dato r)) as (H1 & H2 & H3).
      split; [eapply ts_leb_trans; eauto|].
      split; [constructor; assumption|].
      right. destruct H3 as [H3|(x & Hx & H3)]; eauto.
    + destruct (IH m0) as (H1 & H2 & H3).
      split; [exact H1|].
      split.
      * constructor; [|exact H2].
        eapply ts_leb_trans; [apply ts_leb_false, Hr | exact H1].
      * destruct H3 as [H3|(x & Hx & H3)]; eauto.
Qed.

(** [min_date] is the date of a row and no row is earlier. *)
Lemma min_date_spec (data : DataFrame) (m : Timestamp) :
  min_date data = Some m <->
  (exists r, In r data /\ Dato r = m) /\
  Forall (fun x => ts_leb m (Dato x) = true) data.
Proof.
  split.
  - destruct data as [|r rest]; simpl; [discriminate|].
    intros E; injection E as <-.
    destruct (fold_min_spec rest (Dato r)) as (H1 & H2 & H3). cbv zeta in *.
    split.
    + destruct H3 as [H3|(x & Hx & H3)]; rewrite H3; eauto.
    + constructor; assumption.
  - intros [(r & Hr & <-) Hall].
    destruct data as [|r0 rest]; [contradiction|]. simpl. f_equal.
    destruct (fold_min_spec rest (Dato r0)) as (H1 & H2 & H3). cbv zeta in *.
    apply ts_leb_antisym.
    + rewrite Forall_forall in H2.
      destruct Hr as [<-|Hr]; [exact H1 | apply H2, Hr].
    + rewrite Forall_forall in Hall.
      destruct H3 as [H3|(x & Hx & H3)]; rewrite H3; apply Hall; simpl; auto.
Qed.

Lemma max_date_spec (data : DataFrame) (m : Timestamp) :
  max_date data = Some m <->
  (exists r, In r data /\ Dato r = m) /\
  Forall (fun x => ts_leb (Dato x) m = true) data.
Proof.
  split.
  - destruct data as [|r rest]; simpl; [discriminate|].
    intros E; injection E as <-.
    destruct (fold_max_spec rest (Dato r)) as (H1 & H2 & H3). cbv zeta in *.
    split.
    + destruct H3 as [H3|(x & Hx & H3)]; rewrite H3; eauto.
    + constructor; assumption.
  - intros [(r & Hr & <-) Hall].
    destruct data as [|r0 rest]; [contradiction|]. simpl. f_equal.
    destruct (fold_max_spec rest (Dato r0)) as (H1 & H2 & H3). cbv zeta in *.
    apply ts_leb_antisym.
    + rewrite Forall_forall in Hall.
      destruct H3 as [H3|(x & Hx & H3)]; rewrite H3; apply Hall; simpl; auto.
    + rewrite Forall_forall in H2.
      destruct Hr as [<-|Hr]; [exact H1 | apply H2, Hr].
Qed.

(** ** Lowercase on ASCII text *)

Lemma lower_char_ascii (c : ascii) :
  (nat_of_ascii (lower_char c) <? 128)%nat = (nat_of_ascii c <? 128)%nat.
Proof. destruct c as [[] [] [] [] [] [] [] []]; reflexivity. Qed.

Lemma is_ascii_lower (s : string) : is_ascii (lower s) = is_ascii s.
Proof.
  induction s as [|c s IH]; simpl; [reflexivity|].
  rewrite lower_char_ascii, IH. reflexivity.
Qed.

Lemma lower_char_idempotent (c : ascii) : lower_char (lower_char c) = lower_char c.
Proof.
  destruct c as [[] [] [] [] [] [] [] []]; reflexivity.
Qed.

Lemma lower_idempotent (s : string) : lower (lower s) = lower s.
Proof.
  induction s as [|c s IH]; simpl; [reflexivity|].
  rewrite lower_char_idempotent, IH. reflexivity.
Qed.

(** On ASCII text [str.lower] is the folding of A-Z. *)
Lemma str_lower_ascii (unicode_lower : string -> string) (s : string) :
  is_ascii s = true -> str_lower unicode_lower s = lower s.
Proof. unfold str_lower. intros ->. reflexivity. Qed.

(** A string that folds to ASCII text is ASCII text. *)
Lemma lower_is_ascii (s t : string) :
  lower s = t -> is_ascii t = true -> is_ascii s = true.
Proof. intros <-. rewrite is_ascii_lower. auto. Qed.

(** Every byte is one of the 256. *)
Lemma ascii_pairs (P : ascii -> ascii -> bool) :
  forallb (fun a => forallb (P a) (map ascii_of_nat (seq 0 256)))
          (map ascii_of_nat (seq 0 256)) = true ->
  forall a b, P a b = true.
Proof.
  intros H a b.
  assert (Hin : forall c, In c (map ascii_of_nat (seq 0 256))).
  { intros c. rewrite <- (ascii_nat_embedding c). apply in_map, in_seq.
    pose proof (nat_ascii_bounded c). lia. }
  rewrite forallb_forall in H. specialize (H a (Hin a)).
  rewrite forallb_forall in H. apply H, Hin.
Qed.

(** Two characters are the same letter exactly when they fold to the same
    character. *)
Lemma same_letter_lower_char (a b : ascii) :
  same_letter a b = Ascii.eqb (lower_char a) (lower_char b).
Proof.
  apply eqb_prop.
  apply (ascii_pairs (fun a b => Bool.eqb (same_letter a b)
                                   (Ascii.eqb (lower_char a) (lower_char b)))).
  vm_compute. reflexivity.
Qed.

(** Two texts are equal up to case exactly when they fold to the same
    text. *)
Lemma eq_ignore_case_lower (s s' : string) :
  eq_ignore_case s s' = true <-> lower s = lower s'.
Proof.
  revert s'. induction s as [|a s IH]; intros [|b s']; cbn [eq_ignore_case lower].
  - split; reflexivity.
  - split; discriminate.
  - split; discriminate.
  - rewrite andb_true_iff, same_letter_lower_char, Ascii.eqb_eq, IH.
    split; [intros [-> ->]; reflexivity | intros H; injection H; auto].
Qed.

Example eq_ignore_case_oslo :
  eq_ignore_case "OSLO" "oslo" = true /\
  eq_ignore_case "Oslo" "Osló" = false /\
  eq_ignore_case "Oslo" "Osl0" = false /\
  eq_ignore_case "Oslo" "Oslo " = false.
Proof. repeat split. Qed.

(** ** The plot functions *)

Ltac bind_inv H :=
  let x := fresh "x" in
  let Hx := fresh "Hx" in
  apply bind_Ok_inv in H as (x & Hx & H);
  repeat match type of H with
         | context [match ?p with pair _ _ => _ end] => destruct p
         end.

Section PlotProperties.

Variable unicode_lower : string -> string.
Variable fs : string -> option string.
Variable parse_csv : string -> result DataFrame.
Variable to_datetime : string -> option Timestamp.

Lemma data_file_eq (county : string) :
  data_file unicode_lower county =
  "data_files_updated/antall-meldte-covid-19-"
  ++ str_lower unicode_lower county ++ ".csv".
Proof. reflexivity. Qed.

(** On a convertible bound the selections are the filters, whatever the
    dtype: an [object] column has no row. *)
Lemma select_ge_Some (column : dtype) (data : DataFrame) (s : string)
      (t : Timestamp) :
  to_datetime s = Some t -> (column = object_ -> data = []) ->
  select_ge to_datetime column data s
  = Ok (filter (fun r => ts_leb t (Dato r)) data).
Proof.
  intros Ht Hc. unfold select_ge. destruct column.
  - rewrite Ht. reflexivity.
  - rewrite (Hc eq_refl). reflexivity.
Qed.

Lemma select_le_Some (column : dtype) (data : DataFrame) (s : string)
      (t : Timestamp) :
  to_datetime s = Some t -> (column = object_ -> data = []) ->
  select_le to_datetime column data s
  = Ok (filter (fun r => ts_leb (Dato r) t) data).
Proof.
  intros Ht Hc. unfold select_le. destruct column.
  - rewrite Ht. reflexivity.
  - rewrite (Hc eq_refl). reflexivity.
Qed.

Lemma dato_dtype_object (data : DataFrame) :
  dato_dtype data = object_ -> data = [].
Proof. destruct data; [reflexivity | discriminate]. Qed.

Lemma dato_dtype_object_filter (p : Row -> bool) (data : DataFrame) :
  dato_dtype data = object_ -> filter p data = [].
Proof. intros H. rewrite (dato_dtype_object _ H). reflexivity. Qed.

Lemma load_county_eq (county : string) :
  load_county unicode_lower fs parse_csv county =
  (data <- get_data unicode_lower fs parse_csv county ;;
   Ok (data, if String.eqb county "allcounties" then "Norge" else county)).
Proof.
  unfold load_county.
  destruct (String.eqb county "allcounties") eqn:E; simpl; [|reflexivity].
  apply String.eqb_eq in E. subst. reflexivity.
Qed.

(** The chart [plot_reported_cases] builds from the loaded frame, the
    slice and the two dates of the title. *)
Lemma plot_reported_cases_run (county name : string) (start end_ : option string)
      (data slice : DataFrame) (b1 b2 : bound) (d1 d2 : string) :
  load_county unicode_lower fs parse_csv county = Ok (data, name) ->
  range_filter to_datetime data start end_ = Ok (slice, b1, b2) ->
  py_index (re_findall regs (py_str b1)) 0 = Ok d1 ->
  py_index (re_findall regs (py_str b2)) 0 = Ok d2 ->
  plot_reported_cases unicode_lower fs parse_csv to_datetime county start end_ =
  Ok {| chart_data := slice;
        chart_title := "Oversikt over antall rapporterte smitttede i " ++ name
                       ++ " fra " ++ d1 ++ " til " ++ d2;
        chart_mark := mark_bar;
        encode_x := "Dato";
        encode_y := "Nye tilfeller";
        encode_tooltip := ["Dato"; "Nye tilfeller"];
        properties_width := 1120 |}.
Proof.
  intros Hl Hr H1 H2. unfold plot_reported_cases.
  rewrite Hl. cbn [bind]. rewrite Hr. cbn [bind]. rewrite H2. cbn [bind].
  rewrite H1. reflexivity.
Qed.

Lemma plot_cumulative_cases_run (county name : string) (start end_ : option string)
      (data slice : DataFrame) (b1 b2 : bound) (d1 d2 : string) :
  load_county unicode_lower fs parse_csv county = Ok (data, name) ->
  range_filter to_datetime data start end_ = Ok (slice, b1, b2) ->
  py_index (re_findall regs (py_str b1)) 0 = Ok d1 ->
  py_index (re_findall regs (py_str b2)) 0 = Ok d2 ->
  plot_cumulative_cases unicode_lower fs parse_csv to_datetime county start end_ =
  Ok {| chart_data := slice;
        chart_title := "Oversikt over komulativt antall smitttede i " ++ name
                       ++ ", fra " ++ d1 ++ " til " ++ d2;
        chart_mark := mark_line "green";
        encode_x := "Dato";
        encode_y := "Kumulativt antall";
        encode_tooltip := ["Dato"; "Kumulativt antall"];
        properties_width := 1120 |}.
Proof.
  intros Hl Hr H1 H2. unfold plot_cumulative_cases.
  rewrite Hl. cbn [bind]. rewrite Hr. cbn [bind]. rewrite H2. cbn [bind].
  rewrite H1. reflexivity.
Qed.

(** Conversely, a chart that was returned came from those steps. *)
Lemma plot_reported_cases_inv (county : string) (start end_ : option string)
      (c : Chart) :
  plot_reported_cases unicode_lower fs parse_csv to_datetime county start end_ = Ok c ->
  exists data name slice b1 b2 d1 d2,
    load_county unicode_lower fs parse_csv county = Ok (data, name) /\
    range_filter to_datetime data start end_ = Ok (slice, b1, b2) /\
    py_index (re_findall regs (py_str b1)) 0 = Ok d1 /\
    py_index (re_findall regs (py_str b2)) 0 = Ok d2 /\
    c = {| chart_data := slice;
           chart_title := "Oversikt over antall rapporterte smitttede i " ++ name
                          ++ " fra " ++ d1 ++ " til " ++ d2;
           chart_mark := mark_bar;
           encode_x := "Dato";
           encode_y := "Nye tilfeller";
           encode_tooltip := ["Dato"; "Nye tilfeller"];
           properties_width := 1120 |}.
Proof.
  unfold plot_reported_cases. intros H.
  bind_inv H. bind_inv H. bind_inv H. bind_inv H.
  injection H as <-. repeat eexists; eauto.
Qed.

Lemma plot_cumulative_cases_inv (county : string) (start end_ : option string)
      (c : Chart) :
  plot_cumulative_cases unicode_lower fs parse_csv to_datetime county start end_ = Ok c ->
  exists data name slice b1 b2 d1 d2,
    load_county unicode_lower fs parse_csv county = Ok (data, name) /\
    range_filter to_datetime data start end_ = Ok (slice, b1, b2) /\
    py_index (re_findall regs (py_str b1)) 0 = Ok d1 /\
    py_index (re_findall regs (py_str b2)) 0 = Ok d2 /\
    c = {| chart_data := slice;
           chart_title := "Oversikt over komulativt antall smitttede i " ++ name
                          ++ ", fra " ++ d1 ++ " til " ++ d2;
           chart_mark := mark_line "green";
           encode_x := "Dato";
           encode_y := "Kumulativt antall";
           encode_tooltip := ["Dato"; "Kumulativt antall"];
           properties_width := 1120 |}.
Proof.
  unfold plot_cumulative_cases. intros H.
  bind_inv H. bind_inv H. bind_inv H. bind_inv H.
  injection H as <-. repeat eexists; eauto.
Qed.

Lemma plot_both_inv (county : string) (start end_ : option string)
      (c : LayerChart) :
  plot_both unicode_lower fs parse_csv to_datetime county start end_ = Ok c ->
  exists bar line,
    plot_reported_cases unicode_lower fs parse_csv to_datetime county start end_ = Ok bar /\
    plot_cumulative_cases unicode_lower fs parse_csv to_datetime county start end_ = Ok line /\
    c = {| layer := [bar; line];
           layer_title :=
             "Oversikt over komulativt antall smitttede og antall rapporterte smitttede i "
             ++ (if String.eqb county "allcounties" then "Norge" else county);
           resolve_y := Some independent |}.
Proof.
  unfold plot_both. intros H.
  bind_inv H. bind_inv H. injection H as <-.
  exists x, x0. auto.
Qed.

Lemma plot_both_run (county : string) (start end_ : option string)
      (bar line : Chart) :
  plot_reported_cases unicode_lower fs parse_csv to_datetime county start end_ = Ok bar ->
  plot_cumulative_cases unicode_lower fs parse_csv to_datetime county start end_ = Ok line ->
  plot_both unicode_lower fs parse_csv to_datetime county start end_ =
  Ok {| layer := [bar; line];
        layer_title :=
          "Oversikt over komulativt antall smitttede og antall rapporterte smitttede i "
          ++ (if String.eqb county "allcounties" then "Norge" else county);
        resolve_y := Some independent |}.
Proof.
  intros Hb Hl. unfold plot_both. rewrite Hb. cbn [bind]. rewrite Hl.
  reflexivity.
Qed.

Lemma py_index_raise {A : Type} (l : list A) (i : Z) (e : exn) :
  py_index l i = Raise e -> e = IndexError.
Proof.
  unfold py_index. destruct (_ && _)%bool.
  - destruct (nth_error l _); [discriminate|]. congruence.
  - congruence.
Qed.

(** When the bar chart fails, the line chart and the combined chart fail
    with the same exception. *)
Lemma plots_raise (county : string) (start end_ : option string) (e : exn) :
  plot_reported_cases unicode_lower fs parse_csv to_datetime county start end_ = Raise e ->
  plot_cumulative_cases unicode_lower fs parse_csv to_datetime county start end_ = Raise e /\
  plot_both unicode_lower fs parse_csv to_datetime county start end_ = Raise e.
Proof.
  intros H. split.
  - revert H. unfold plot_reported_cases, plot_cumulative_cases.
    destruct (load_county unicode_lower fs parse_csv county) as [[data name]|e0];
      cbn [bind]; [|auto].
    destruct (range_filter to_datetime data start end_) as [[[slice b1] b2]|e0];
      cbn [bind]; [|auto].
    destruct (py_index (re_findall regs (py_str b2)) 0); cbn [bind]; [|auto].
    destruct (py_index (re_findall regs (py_str b1)) 0); cbn [bind]; [|auto].
    discriminate.
  - unfold plot_both. rewrite H. reflexivity.
Qed.

Lemma load_county_Ok (county : string) (data : DataFrame) :
  get_data unicode_lower fs parse_csv county = Ok data ->
  load_county unicode_lower fs parse_csv county =
  Ok (data, if String.eqb county "allcounties" then "Norge" else county).
Proof. intros H. rewrite load_county_eq, H. reflexivity. Qed.


(** When the range filter raises, so do the three plot functions. *)
Lemma range_filter_raise (county : string) (start end_ : option string)
      (data : DataFrame) (e : exn) :
  get_data unicode_lower fs parse_csv county = Ok data ->
  range_filter to_datetime data start end_ = Raise e ->
  plot_reported_cases unicode_lower fs parse_csv to_datetime county start end_
    = Raise e /\
  plot_cumulative_cases unicode_lower fs parse_csv to_datetime county start end_
    = Raise e /\
  plot_both unicode_lower fs parse_csv to_datetime county start end_ = Raise e.
Proof.
  intros Hg Hr.
  assert (Hb : plot_reported_cases unicode_lower fs parse_csv to_datetime
                                   county start end_ = Raise e).
  { unfold plot_reported_cases. rewrite (load_county_Ok _ _ Hg). cbn [bind].
    rewrite Hr. reflexivity. }
  split; [exact Hb | apply plots_raise, Hb].
Qed.

(** The range filter with both bounds given. *)
Lemma range_filter_both (data : DataFrame) (s e s' e' : string)
      (ts te : Timestamp) :
  fix_dates s = Ok s' -> to_datetime s' = Some ts ->
  fix_dates e = Ok e' -> to_datetime e' = Some te ->
  range_filter to_datetime data (Some s) (Some e) =
  Ok (filter (fun r => ts_leb ts (Dato r) && ts_leb (Dato r) te) data,
      BStr s', BStr e').
Proof.
  intros Hs Hts He Hte. unfold range_filter. cbv zeta.
  rewrite Hs. cbn [bind].
  rewrite (select_ge_Some _ _ _ _ Hts (dato_dtype_object data)). cbn [bind].
  rewrite He. cbn [bind].
  rewrite (select_le_Some _ _ _ _ Hte (dato_dtype_object_filter _ data)).
  cbn [bind]. rewrite filter_filter. reflexivity.
Qed.

(** C1.  With both bounds given, the slice holds exactly the rows of the
    frame whose date lies between the start and the end, both included,
    in their file order; and when the dates of the frame are in order the
    slice is a run of consecutive rows: the frame is some rows, then the
    slice, then some rows.  The order of the two bounds plays no part. *)
Theorem range_filter_inclusive (data : DataFrame) (s e s' e' : string)
        (ts te : Timestamp) :
  fix_dates s = Ok s' -> to_datetime s' = Some ts ->
  fix_dates e = Ok e' -> to_datetime e' = Some te ->
  exists slice,
    range_filter to_datetime data (Some s) (Some e) = Ok (slice, BStr s', BStr e') /\
    slice = filter (fun r => ts_leb ts (Dato r) && ts_leb (Dato r) te) data /\
    (forall r, In r slice <->
               In r data /\ ts_leb ts (Dato r) = true /\ ts_leb (Dato r) te = true) /\
    (is_sorted data = true ->
     exists before after, data = (before ++ slice ++ after)%list).
Proof using to_datetime.
  intros Hs Hts He Hte.
  eexists. split; [apply (range_filter_both data s e s' e' ts te); assumption|].
  split; [reflexivity|]. split.
  - intros r. rewrite filter_In, andb_true_iff.
    split; [intros (H1 & H2 & H3) | intros (H1 & H2 & H3)]; auto.
  - apply filter_range_contiguous.
Qed.

(** C7.  [get_data] reads the file named by the lowercased county.  Two
    counties with the same lowercase form, as [str.lower] gives it, name the
    same file and load the same data; so do two ASCII counties that are
    equal up to the case of their letters, as "OSLO" and "oslo" are. *)
Theorem get_data_case_insensitive (county county' : string) :
  str_lower unicode_lower county = str_lower unicode_lower county' \/
  (is_ascii county = true /\ is_ascii county' = true /\
   eq_ignore_case county county' = true) ->
  data_file unicode_lower county =
    "data_files_updated/antall-meldte-covid-19-"
    ++ str_lower unicode_lower county ++ ".csv" /\
  data_file unicode_lower county = data_file unicode_lower county' /\
  get_data unicode_lower fs parse_csv county
    = get_data unicode_lower fs parse_csv county' /\
  data_file unicode_lower "OSLO" = data_file unicode_lower "oslo".
Proof.
  intros H. split; [reflexivity|].
  assert (Hl : str_lower unicode_lower county = str_lower unicode_lower county').
  { destruct H as [H | (Ha & Ha' & H)]; [exact H|].
    rewrite !str_lower_ascii by assumption.
    apply eq_ignore_case_lower, H. }
  assert (E : data_file unicode_lower county = data_file unicode_lower county').
  { rewrite !data_file_eq, Hl. reflexivity. }
  split; [exact E|]. split; [|reflexivity].
  unfold get_data. rewrite E. reflexivity.
Qed.

(** C8.  When the file named by the county does not exist, [get_data]
    raises [FileNotFoundError], and each plot function raises the same
    error, whatever the bounds. *)
Theorem missing_file_raises (county : string) (start end_ : option string) :
  fs (data_file unicode_lower county) = None ->
  get_data unicode_lower fs parse_csv county = Raise FileNotFoundError /\
  plot_reported_cases unicode_lower fs parse_csv to_datetime county start end_
    = Raise FileNotFoundError /\
  plot_cumulative_cases unicode_lower fs parse_csv to_datetime county start end_
    = Raise FileNotFoundError /\
  plot_both unicode_lower fs parse_csv to_datetime county start end_
    = Raise FileNotFoundError.
Proof.
  intros H.
  assert (Hg : get_data unicode_lower fs parse_csv county = Raise FileNotFoundError).
  { unfold get_data, read_csv. rewrite H. reflexivity. }
  assert (Hl : load_county unicode_lower fs parse_csv county = Raise FileNotFoundError).
  { rewrite load_county_eq, Hg. reflexivity. }
  assert (Hr : plot_reported_cases unicode_lower fs parse_csv to_datetime county start end_
               = Raise FileNotFoundError).
  { unfold plot_reported_cases. rewrite Hl. reflexivity. }
  repeat split; try assumption.
  - unfold plot_cumulative_cases. rewrite Hl. reflexivity.
  - unfold plot_both. rewrite Hr. reflexivity.
Qed.

(** C9.  A chart returned by [plot_both] has its y scales resolved as
    independent; its two layers are the bar chart of 'Nye tilfeller' and
    the line chart of 'Kumulativt antall'. *)
Theorem plot_both_independent_y (county : string) (start end_ : option string)
        (c : LayerChart) :
  plot_both unicode_lower fs parse_csv to_datetime county start end_ = Ok c ->
  resolve_y c = Some independent /\
  exists bar line,
    layer c = [bar; line] /\
    plot_reported_cases unicode_lower fs parse_csv to_datetime county start end_ = Ok bar /\
    plot_cumulative_cases unicode_lower fs parse_csv to_datetime county start end_ = Ok line /\
    chart_mark bar = mark_bar /\ encode_y bar = "Nye tilfeller" /\
    chart_mark line = mark_line "green" /\ encode_y line = "Kumulativt antall".
Proof.
  intros H. apply plot_both_inv in H as (bar & line & Hb & Hl & ->).
  split; [reflexivity|]. exists bar, line.
  pose proof Hb as Hb'. pose proof Hl as Hl'.
  apply plot_reported_cases_inv in Hb'
    as (? & ? & ? & ? & ? & ? & ? & _ & _ & _ & _ & ->).
  apply plot_cumulative_cases_inv in Hl'
    as (? & ? & ? & ? & ? & ? & ? & _ & _ & _ & _ & ->).
  repeat split; assumption.
Qed.

(** *** Open bounds *)

Lemma first_date (r0 : Row) (rest : DataFrame) :
  py_index (map Dato (r0 :: rest)) 0 = Ok (Dato r0).
Proof. apply py_index_0_cons. Qed.

Lemma last_date (front : DataFrame) (rn : Row) :
  py_index (map Dato (front ++ [rn])%list) (-1) = Ok (Dato rn).
Proof. rewrite map_app. apply py_index_last. Qed.

Lemma range_filter_none_none (data rest front : DataFrame) (r0 rn : Row) :
  data = r0 :: rest -> data = (front ++ [rn])%list ->
  range_filter to_datetime data None None =
  Ok (data, BTimestamp (Dato r0), BTimestamp (Dato rn)).
Proof.
  intros H0 Hn.
  assert (Hf : py_index (map Dato data) 0 = Ok (Dato r0))
    by (rewrite H0; apply first_date).
  assert (Hl : py_index (map Dato data) (-1) = Ok (Dato rn))
    by (rewrite Hn; apply last_date).
  unfold range_filter. cbv zeta. rewrite Hf. cbn [bind]. rewrite Hl.
  reflexivity.
Qed.

Lemma range_filter_none_some (data rest : DataFrame) (r0 : Row)
      (e e' : string) (te : Timestamp) :
  data = r0 :: rest ->
  fix_dates e = Ok e' -> to_datetime e' = Some te ->
  range_filter to_datetime data None (Some e) =
  Ok (filter (fun r => ts_leb (Dato r) te) data, BTimestamp (Dato r0), BStr e').
Proof.
  intros H0 He Hte.
  assert (Hf : py_index (map Dato data) 0 = Ok (Dato r0))
    by (rewrite H0; apply first_date).
  unfold range_filter. cbv zeta. rewrite Hf. cbn [bind].
  rewrite He. cbn [bind].
  rewrite (select_le_Some _ _ _ _ Hte (dato_dtype_object data)). reflexivity.
Qed.

Lemma range_filter_some_none (data front : DataFrame) (rn : Row)
      (s s' : string) (ts : Timestamp) :
  data = (front ++ [rn])%list ->
  fix_dates s = Ok s' -> to_datetime s' = Some ts ->
  ts_leb ts (Dato rn) = true ->
  range_filter to_datetime data (Some s) None =
  Ok (filter (fun r => ts_leb ts (Dato r)) data, BStr s', BTimestamp (Dato rn)).
Proof.
  intros Hn Hs Hts Hle.
  assert (Hl : py_index (map Dato (filter (fun r => ts_leb ts (Dato r)) data))
                        (-1) = Ok (Dato rn)).
  { rewrite Hn, filter_app. cbn [filter]. rewrite Hle. apply last_date. }
  unfold range_filter. cbv zeta. rewrite Hs. cbn [bind].
  rewrite (select_ge_Some _ _ _ _ Hts (dato_dtype_object data)). cbn [bind].
  rewrite Hl. reflexivity.
Qed.

(** What [range_filter] returned with the start omitted. *)
Lemma range_filter_start_omitted_inv (data slice : DataFrame)
      (end_ : option string) (b1 b2 : bound) :
  range_filter to_datetime data None end_ = Ok (slice, b1, b2) ->
  slice = data \/
  exists te, slice = filter (fun r => ts_leb (Dato r) te) data.
Proof.
  unfold range_filter, select_le. cbv zeta.
  destruct data as [|r data].
  - cbn [map]. rewrite py_index_nil. discriminate.
  - cbn [dato_dtype]. set (frame := r :: data).
    destruct (py_index (map Dato frame) 0) as [t0|]; cbn [bind]; [|discriminate].
    destruct end_ as [e|].
    + destruct (fix_dates e) as [e'|]; cbn [bind]; [|discriminate].
      destruct (to_datetime e') as [te|]; cbn [bind]; [|discriminate].
      intros H; injection H as <- _ _. right. exists te. reflexivity.
    + destruct (py_index (map Dato frame) (-1)); cbn [bind]; [|discriminate].
      intros H; injection H as <- _ _. left. reflexivity.
Qed.

(** What [range_filter] returned with the end omitted: the slice has a row. *)
Lemma range_filter_end_omitted_inv (data slice : DataFrame)
      (start : option string) (b1 b2 : bound) :
  range_filter to_datetime data start None = Ok (slice, b1, b2) ->
  slice <> [] /\
  (slice = data \/
   exists ts, slice = filter (fun r => ts_leb ts (Dato r)) data).
Proof.
  unfold range_filter, select_ge. cbv zeta.
  destruct data as [|r data].
  - cbn [dato_dtype map]. destruct start as [s|].
    + destruct (fix_dates s); cbn [bind map]; [rewrite py_index_nil|];
        discriminate.
    + rewrite py_index_nil. discriminate.
  - cbn [dato_dtype]. remember (r :: data) as frame eqn:Hframe.
    destruct start as [s|].
    + destruct (fix_dates s) as [s'|]; cbn [bind]; [|discriminate].
      destruct (to_datetime s') as [ts|]; cbn [bind]; [|discriminate].
      destruct (py_index (map Dato (filter _ frame)) (-1)) eqn:E;
        cbn [bind]; [|discriminate].
      intros H; injection H as <- _ _. split.
      * intros Hnil. rewrite Hnil in E. cbn [map] in E.
        rewrite py_index_nil in E. discriminate.
      * right. exists ts. reflexivity.
    + destruct (py_index (map Dato frame) 0); cbn [bind]; [|discriminate].
      destruct (py_index (map Dato frame) (-1)) eqn:E; cbn [bind];
        [|discriminate].
      intros H; injection H as <- _ _. split.
      * rewrite Hframe. discriminate.
      * left. reflexivity.
Qed.

(** A slice cut at an end date that keeps a row keeps the earliest row. *)
Lemma min_date_filter_le (te : Timestamp) (data : DataFrame) :
  filter (fun r => ts_leb (Dato r) te) data <> [] ->
  min_date (filter (fun r => ts_leb (Dato r) te) data) = min_date data.
Proof.
  intros Hne.
  destruct (min_date data) as [m|] eqn:Hm.
  - apply min_date_spec in Hm as [(r & Hr & <-) Hall].
    rewrite Forall_forall in Hall.
    apply min_date_spec. split.
    + exists r. split; [|reflexivity]. apply filter_In. split; [exact Hr|].
      destruct (filter _ data) as [|x l] eqn:E; [contradiction|].
      assert (Hx : In x (filter (fun r => ts_leb (Dato r) te) data))
        by (rewrite E; left; reflexivity).
      apply filter_In in Hx as [Hx Hxt].
      eapply ts_leb_trans; [apply Hall, Hx | exact Hxt].
    + apply Forall_forall. intros x Hx. apply filter_In in Hx as [Hx _].
      apply Hall, Hx.
  - destruct data; [contradiction | discriminate].
Qed.

(** A slice cut at a start date that keeps a row keeps the latest row. *)
Lemma max_date_filter_ge (ts : Timestamp) (data : DataFrame) :
  filter (fun r => ts_leb ts (Dato r)) data <> [] ->
  max_date (filter (fun r => ts_leb ts (Dato r)) data) = max_date data.
Proof.
  intros Hne.
  destruct (max_date data) as [m|] eqn:Hm.
  - apply max_date_spec in Hm as [(r & Hr & <-) Hall].
    rewrite Forall_forall in Hall.
    apply max_date_spec. split.
    + exists r. split; [|reflexivity]. apply filter_In. split; [exact Hr|].
      destruct (filter _ data) as [|x l] eqn:E; [contradiction|].
      assert (Hx : In x (filter (fun r => ts_leb ts (Dato r)) data))
        by (rewrite E; left; reflexivity).
      apply filter_In in Hx as [Hx Hxt].
      eapply ts_leb_trans; [exact Hxt | apply Hall, Hx].
    + apply Forall_forall. intros x Hx. apply filter_In in Hx as [Hx _].
      apply Hall, Hx.
  - destruct data; [contradiction | discriminate].
Qed.

(** C2, as the code has it.  For a frame with at least one row, [r0] its
    first and [rn] its last: with the start omitted the start bound is the
    date of [r0], whether the end is given or not; with the end omitted
    the end bound is the date of [rn] when the start is omitted too or is
    not after the date of [rn]; with the start omitted a slice that holds
    a row has the smallest date of the frame as its smallest date, and
    with the end omitted the slice returned has the largest date of the
    frame as its largest date. *)
Theorem range_filter_open_bounds (data rest front : DataFrame) (r0 rn : Row) :
  data = r0 :: rest -> data = (front ++ [rn])%list ->
  range_filter to_datetime data None None
    = Ok (data, BTimestamp (Dato r0), BTimestamp (Dato rn)) /\
  (forall e e' te,
      fix_dates e = Ok e' -> to_datetime e' = Some te ->
      range_filter to_datetime data None (Some e)
        = Ok (filter (fun r => ts_leb (Dato r) te) data,
              BTimestamp (Dato r0), BStr e')) /\
  (forall s s' ts,
      fix_dates s = Ok s' -> to_datetime s' = Some ts ->
      ts_leb ts (Dato rn) = true ->
      range_filter to_datetime data (Some s) None
        = Ok (filter (fun r => ts_leb ts (Dato r)) data,
              BStr s', BTimestamp (Dato rn))) /\
  (forall end_ slice b1 b2,
      range_filter to_datetime data None end_ = Ok (slice, b1, b2) ->
      slice <> [] -> min_date slice = min_date data) /\
  (forall start slice b1 b2,
      range_filter to_datetime data start None = Ok (slice, b1, b2) ->
      max_date slice = max_date data).
Proof.
  intros H0 Hn. split; [eapply range_filter_none_none; eauto|].
  split; [intros; eapply range_filter_none_some; eauto|].
  split; [intros; eapply range_filter_some_none; eauto|].
  split.
  - intros end_ slice b1 b2 H Hne.
    apply range_filter_start_omitted_inv in H as [->|(te & ->)];
      [reflexivity | apply min_date_filter_le, Hne].
  - intros start slice b1 b2 H.
    apply range_filter_end_omitted_inv in H as [Hne [->|(ts & ->)]];
      [reflexivity | apply max_date_filter_ge, Hne].
Qed.

(** *** Titles *)

Lemma startswith_refl (s : string) : startswith s s = true.
Proof.
  induction s as [|c s IH]; simpl; [reflexivity|].
  rewrite Ascii.eqb_refl. exact IH.
Qed.

Lemma str_in_refl (s : string) : str_in s s = true.
Proof. apply str_in_startswith, startswith_refl. Qed.

(** The date [re.findall(regs, ...)[0]] returns holds digits and dashes. *)
Lemma findall_regs_chars (s d : string) (c : ascii) :
  py_index (re_findall regs s) 0 = Ok d ->
  is_digit c = false -> Ascii.eqb "-" c = false ->
  str_in (String c "") d = false.
Proof.
  intros H Hd Hc. apply py_index_Ok_In in H.
  apply findall_from_In in H as (s' & Hm).
  eapply regs_match_chars; eauto.
Qed.

Lemma lower_char_in (c : ascii) (s : string) :
  str_in (String c "") s = true ->
  str_in (String (lower_char c) "") (lower s) = true.
Proof.
  induction s as [|x s IH]; intros H; [discriminate|].
  cbn [lower]. rewrite str_in_char_cons in *.
  apply orb_true_iff in H as [H|H].
  - apply Ascii.eqb_eq in H; subst. rewrite Ascii.eqb_refl. reflexivity.
  - rewrite (IH H). apply orb_true_r.
Qed.

(** A county that lowercases to "allcounties" holds no "g". *)
Lemma allcounties_casing_no_g (county : string) :
  lower county = "allcounties" -> str_in "g" county = false.
Proof.
  intros H. destruct (str_in "g" county) eqn:E; [|reflexivity].
  apply lower_char_in in E. rewrite H in E. discriminate.
Qed.

Lemma isoformat_chars (t : Timestamp) (c : ascii) :
  is_digit c = false -> Ascii.eqb "-" c = false ->
  str_in (String c "") (isoformat t) = false.
Proof.
  intros Hd Hc. eapply regs_match_chars; eauto. apply (regs_isoformat t "").
Qed.




(** A start after every date leaves no row to read the end from. *)
Lemma range_filter_start_after_all (data : DataFrame) (s s' : string)
      (ts : Timestamp) :
  fix_dates s = Ok s' -> to_datetime s' = Some ts ->
  Forall (fun r => ts_leb ts (Dato r) = false) data ->
  range_filter to_datetime data (Some s) None = Raise IndexError.
Proof.
  intros Hs Hts Hall. unfold range_filter. cbv zeta. rewrite Hs. cbn [bind].
  rewrite (select_ge_Some _ _ _ _ Hts (dato_dtype_object data)). cbn [bind].
  rewrite (filter_none _ _ Hall). cbn [map]. rewrite py_index_nil. reflexivity.
Qed.



Lemma is_sorted_last (front : DataFrame) (rn : Row) :
  is_sorted (front ++ [rn])%list = true ->
  Forall (fun x => ts_leb (Dato x) (Dato rn) = true) (front ++ [rn])%list.
Proof.
  induction front as [|r front IH]; intros H.
  - repeat constructor. apply ts_leb_refl.
  - change ((r :: front) ++ [rn])%list with (r :: (front ++ [rn]))%list in *.
    constructor; [|apply IH; eapply is_sorted_tail; eauto].
    pose proof (is_sorted_head _ _ H) as Hall.
    rewrite Forall_forall in Hall. apply Hall, in_or_app. right. left. reflexivity.
Qed.

(** Each plot function takes the name for its title from the county
    it was called with: "Norge" for the string "allcounties", the county
    itself otherwise. *)
Lemma title_name_from_county (county : string) (start end_ : option string) :
  (forall c,
      plot_reported_cases unicode_lower fs parse_csv to_datetime county start end_
        = Ok c ->
      exists d1 d2,
        chart_title c =
          "Oversikt over antall rapporterte smitttede i "
          ++ (if String.eqb county "allcounties" then "Norge" else county)
          ++ " fra " ++ d1 ++ " til " ++ d2) /\
  (forall c,
      plot_cumulative_cases unicode_lower fs parse_csv to_datetime county start end_
        = Ok c ->
      exists d1 d2,
        chart_title c =
          "Oversikt over komulativt antall smitttede i "
          ++ (if String.eqb county "allcounties" then "Norge" else county)
          ++ ", fra " ++ d1 ++ " til " ++ d2) /\
  (forall c,
      plot_both unicode_lower fs parse_csv to_datetime county start end_ = Ok c ->
      layer_title c =
        "Oversikt over komulativt antall smitttede og antall rapporterte smitttede i "
        ++ (if String.eqb county "allcounties" then "Norge" else county)).
Proof.
  split; [|split].
  - intros c H.
    apply plot_reported_cases_inv in H
      as (data & name & slice & b1 & b2 & d1 & d2 & Hl & _ & _ & _ & ->).
    rewrite load_county_eq in Hl.
    destruct (get_data unicode_lower fs parse_csv county); [|discriminate].
    injection Hl as _ <-. exists d1, d2. reflexivity.
  - intros c H.
    apply plot_cumulative_cases_inv in H
      as (data & name & slice & b1 & b2 & d1 & d2 & Hl & _ & _ & _ & ->).
    rewrite load_county_eq in Hl.
    destruct (get_data unicode_lower fs parse_csv county); [|discriminate].
    injection Hl as _ <-. exists d1, d2. reflexivity.
  - intros c H. apply plot_both_inv in H as (bar & line & _ & _ & ->).
    reflexivity.
Qed.

(** C6, as the code has it.  For "allcounties" with no bounds and a file
    with rows, the bounds are the dates of the first and of the last row
    (the smallest and the largest date when the dates are in order), the
    three charts are returned, and each title holds "Norge" and does not
    hold "allcounties".  The name is not handed on from the loading: each
    of the three functions takes it from the county it was called with,
    "Norge" for the string "allcounties" and the county itself for every
    other string. *)
Theorem allcounties_titles (data rest front : DataFrame) (r0 rn : Row) :
  get_data unicode_lower fs parse_csv "allcounties" = Ok data ->
  data = r0 :: rest -> data = (front ++ [rn])%list ->
  range_filter to_datetime data None None
    = Ok (data, BTimestamp (Dato r0), BTimestamp (Dato rn)) /\
  (is_sorted data = true ->
   min_date data = Some (Dato r0) /\ max_date data = Some (Dato rn)) /\
  exists bar line both,
    plot_reported_cases unicode_lower fs parse_csv to_datetime "allcounties" None None = Ok bar /\
    plot_cumulative_cases unicode_lower fs parse_csv to_datetime "allcounties" None None = Ok line /\
    plot_both unicode_lower fs parse_csv to_datetime "allcounties" None None = Ok both /\
    layer both = [bar; line] /\
    chart_data bar = data /\ chart_data line = data /\
    chart_title bar =
      "Oversikt over antall rapporterte smitttede i Norge fra "
      ++ isoformat (Dato r0) ++ " til " ++ isoformat (Dato rn) /\
    chart_title line =
      "Oversikt over komulativt antall smitttede i Norge, fra "
      ++ isoformat (Dato r0) ++ " til " ++ isoformat (Dato rn) /\
    layer_title both =
      "Oversikt over komulativt antall smitttede og antall rapporterte smitttede i Norge" /\
    Forall (fun t => str_in "Norge" t = true /\ str_in "allcounties" t = false)
           [chart_title bar; chart_title line; layer_title both] /\
    forall county start end_,
      (forall c,
          plot_reported_cases unicode_lower fs parse_csv to_datetime
                              county start end_ = Ok c ->
          exists d1 d2,
            chart_title c =
              "Oversikt over antall rapporterte smitttede i "
              ++ (if String.eqb county "allcounties" then "Norge" else county)
              ++ " fra " ++ d1 ++ " til " ++ d2) /\
      (forall c,
          plot_cumulative_cases unicode_lower fs parse_csv to_datetime
                                county start end_ = Ok c ->
          exists d1 d2,
            chart_title c =
              "Oversikt over komulativt antall smitttede i "
              ++ (if String.eqb county "allcounties" then "Norge" else county)
              ++ ", fra " ++ d1 ++ " til " ++ d2) /\
      (forall c,
          plot_both unicode_lower fs parse_csv to_datetime county start end_
            = Ok c ->
          layer_title c =
            "Oversikt over komulativt antall smitttede og antall rapporterte smitttede i "
            ++ (if String.eqb county "allcounties" then "Norge" else county)).
Proof.
  intros Hg H0 Hn.
  pose proof (range_filter_none_none data rest front r0 rn H0 Hn) as Hr.
  split; [exact Hr|]. split.
  - intros Hs. split.
    + apply min_date_spec. split.
      * exists r0. split; [rewrite H0; left|]; reflexivity.
      * rewrite H0. constructor; [apply ts_leb_refl|].
        apply is_sorted_head. rewrite <- H0. exact Hs.
    + apply max_date_spec. split.
      * exists rn. split; [|reflexivity].
        rewrite Hn. apply in_or_app. right. left. reflexivity.
      * rewrite Hn. apply is_sorted_last. rewrite <- Hn. exact Hs.
  - assert (Hl : load_county unicode_lower fs parse_csv "allcounties" = Ok (data, "Norge")).
    { rewrite load_county_eq, Hg. reflexivity. }
    pose proof (plot_reported_cases_run _ _ _ _ _ _ _ _ _ _ Hl Hr
                  (findall_str_timestamp (Dato r0))
                  (findall_str_timestamp (Dato rn))) as Hb.
    pose proof (plot_cumulative_cases_run _ _ _ _ _ _ _ _ _ _ Hl Hr
                  (findall_str_timestamp (Dato r0))
                  (findall_str_timestamp (Dato rn))) as Hc.
    do 3 eexists.
    split; [exact Hb|]. split; [exact Hc|].
    split; [apply (plot_both_run _ _ _ _ _ Hb Hc)|].
    cbn [layer chart_data chart_title layer_title String.eqb Ascii.eqb].
    do 6 (split; [reflexivity|]).
    split; [|apply title_name_from_county].
    assert (Hc' : forall t, str_in "c" (isoformat t) = false)
      by (intros t; apply isoformat_chars; reflexivity).
    repeat constructor.
    all: apply (str_in_missing_char _ _ "c"); [reflexivity|].
    all: rewrite !str_in_char_app, !Hc'; reflexivity.
Qed.

(** C10.  A county that is not the string "allcounties" itself and
    lowercases to it reads the file of the whole country, and the title of
    every chart returned for it holds the county as it was passed and does
    not hold "Norge". *)
Theorem other_casing_keeps_identifier (county : string) :
  String.eqb county "allcounties" = false ->
  lower county = "allcounties" ->
  data_file unicode_lower county = data_file unicode_lower "allcounties" /\
  get_data unicode_lower fs parse_csv county = get_data unicode_lower fs parse_csv "allcounties" /\
  (forall start end_ c,
      plot_reported_cases unicode_lower fs parse_csv to_datetime county start end_ = Ok c ->
      str_in county (chart_title c) = true /\
      str_in "Norge" (chart_title c) = false) /\
  (forall start end_ c,
      plot_cumulative_cases unicode_lower fs parse_csv to_datetime county start end_ = Ok c ->
      str_in county (chart_title c) = true /\
      str_in "Norge" (chart_title c) = false) /\
  (forall start end_ c,
      plot_both unicode_lower fs parse_csv to_datetime county start end_ = Ok c ->
      str_in county (layer_title c) = true /\
      str_in "Norge" (layer_title c) = false).
Proof.
  intros Hneq Hlow.
  assert (Ha : is_ascii county = true)
    by (apply (lower_is_ascii _ _ Hlow); reflexivity).
  assert (E : data_file unicode_lower county
              = data_file unicode_lower "allcounties").
  { rewrite !data_file_eq, (str_lower_ascii _ _ Ha), Hlow. reflexivity. }
  pose proof (allcounties_casing_no_g county Hlow) as Hg.
  split; [exact E|].
  split; [unfold get_data; rewrite E; reflexivity|].
  split; [|split].
  - intros start end_ c H.
    apply plot_reported_cases_inv in H
      as (data & name & slice & b1 & b2 & d1 & d2 & Hl & _ & H1 & H2 & ->).
    rewrite load_county_eq, Hneq in Hl.
    destruct (get_data unicode_lower fs parse_csv county); [|discriminate].
    injection Hl as _ <-. cbn [chart_title]. split.
    + apply str_in_mid.
    + apply (str_in_missing_char _ _ "g"); [reflexivity|].
      rewrite !str_in_char_app, Hg.
      rewrite (findall_regs_chars _ _ "g" H1), (findall_regs_chars _ _ "g" H2)
        by reflexivity.
      reflexivity.
  - intros start end_ c H.
    apply plot_cumulative_cases_inv in H
      as (data & name & slice & b1 & b2 & d1 & d2 & Hl & _ & H1 & H2 & ->).
    rewrite load_county_eq, Hneq in Hl.
    destruct (get_data unicode_lower fs parse_csv county); [|discriminate].
    injection Hl as _ <-. cbn [chart_title]. split.
    + apply str_in_mid.
    + apply (str_in_missing_char _ _ "g"); [reflexivity|].
      rewrite !str_in_char_app, Hg.
      rewrite (findall_regs_chars _ _ "g" H1), (findall_regs_chars _ _ "g" H2)
        by reflexivity.
      reflexivity.
  - intros start end_ c H.
    apply plot_both_inv in H as (bar & line & _ & _ & ->).
    rewrite Hneq. cbn [layer_title]. split.
    + apply str_in_app_r, str_in_refl.
    + rewrite str_in_skip by reflexivity.
      apply (str_in_missing_char _ _ "g"); [reflexivity | exact Hg].
Qed.

End PlotProperties.

(** ** The theorems at the sample data *)

Example plot_both_oslo :
  plot_both sample_lower sample_fs sample_parse_csv iso_to_datetime
            "Oslo" (Some "12/03/2020") (Some "13/03/2020") =
  Ok {| layer :=
          [ {| chart_data :=
                 [ {| Dato := date 2020 3 12; Nye_tilfeller := 5;
                      Kumulativt_antall := 8 |};
                   {| Dato := date 2020 3 13; Nye_tilfeller := 4;
                      Kumulativt_antall := 12 |} ];
               chart_title :=
                 "Oversikt over antall rapporterte smitttede i Oslo fra 2020-03-12 til 2020-03-13";
               chart_mark := mark_bar;
               encode_x := "Dato";
               encode_y := "Nye tilfeller";
               encode_tooltip := ["Dato"; "Nye tilfeller"];
               properties_width := 1120 |};
            {| chart_data :=
                 [ {| Dato := date 2020 3 12; Nye_tilfeller := 5;
                      Kumulativt_antall := 8 |};
                   {| Dato := date 2020 3 13; Nye_tilfeller := 4;
                      Kumulativt_antall := 12 |} ];
               chart_title :=
                 "Oversikt over komulativt antall smitttede i Oslo, fra 2020-03-12 til 2020-03-13";
               chart_mark := mark_line "green";
               encode_x := "Dato";
               encode_y := "Kumulativt antall";
               encode_tooltip := ["Dato"; "Kumulativt antall"];
               properties_width := 1120 |} ];
        layer_title :=
          "Oversikt over komulativt antall smitttede og antall rapporterte smitttede i Oslo";
        resolve_y := Some independent |}.
Proof. vm_compute. reflexivity. Qed.

Example plot_reported_cases_other_casing :
  exists c,
    plot_reported_cases sample_lower sample_fs sample_parse_csv iso_to_datetime
                        "AllCounties" None None = Ok c /\
    chart_title c =
      "Oversikt over antall rapporterte smitttede i AllCounties fra 2020-03-11 til 2020-03-13".
Proof. eexists. split; vm_compute; reflexivity. Qed.

(** Without the dates in order the slice need not be a run of consecutive
    rows. *)
Example range_filter_unsorted :
  range_filter iso_to_datetime unsorted_frame
               (Some "12/03/2020") (Some "13/03/2020") =
  Ok ([ {| Dato := date 2020 3 12; Nye_tilfeller := 5; Kumulativt_antall := 8 |};
        {| Dato := date 2020 3 13; Nye_tilfeller := 4; Kumulativt_antall := 12 |} ],
      BStr "2020-03-12", BStr "2020-03-13").
Proof. vm_compute. reflexivity. Qed.

Lemma range_filter_inclusive_witness :
  exists slice,
    range_filter iso_to_datetime sample_frame
                 (Some "12/03/2020") (Some "2020-03-13")
      = Ok (slice, BStr "2020-03-12", BStr "2020-03-13") /\
    slice = filter (fun r => ts_leb (date 2020 3 12) (Dato r)
                             && ts_leb (Dato r) (date 2020 3 13)) sample_frame /\
    (forall r, In r slice <->
               In r sample_frame /\ ts_leb (date 2020 3 12) (Dato r) = true
               /\ ts_leb (Dato r) (date 2020 3 13) = true) /\
    (is_sorted sample_frame = true ->
     exists before after, sample_frame = (before ++ slice ++ after)%list).
Proof.
  apply (range_filter_inclusive iso_to_datetime sample_frame
           "12/03/2020" "2020-03-13" "2020-03-12" "2020-03-13"
           (date 2020 3 12) (date 2020 3 13)); reflexivity.
Defined.

Lemma range_filter_open_bounds_witness :
  range_filter iso_to_datetime sample_frame None None
    = Ok (sample_frame, BTimestamp (date 2020 3 11), BTimestamp (date 2020 3 13)).
Proof.
  apply (range_filter_open_bounds iso_to_datetime sample_frame
           (tl sample_frame) (removelast sample_frame)
           {| Dato := date 2020 3 11; Nye_tilfeller := 3; Kumulativt_antall := 3 |}
           {| Dato := date 2020 3 13; Nye_tilfeller := 4; Kumulativt_antall := 12 |});
    reflexivity.
Defined.

(** C2 fails on the code: with a start after the last date and the end
    omitted the end bound is read from the slice, which has no row, and
    [IndexError] is raised; on a frame with no row the start bound cannot be
    read either. *)
Lemma range_filter_end_read_from_slice :
  range_filter iso_to_datetime sample_frame (Some "20/03/2020") None
    = Raise IndexError /\
  ~ (exists slice b1,
        range_filter iso_to_datetime sample_frame (Some "20/03/2020") None
        = Ok (slice, b1, BTimestamp (date 2020 3 13))) /\
  range_filter iso_to_datetime [] None None = Raise IndexError.
Proof.
  split; [vm_compute; reflexivity|].
  split; [|vm_compute; reflexivity].
  intros (slice & b1 & H). vm_compute in H. discriminate.
Qed.



Lemma allcounties_titles_witness :
  exists bar line both,
    plot_reported_cases sample_lower sample_fs sample_parse_csv iso_to_datetime
                        "allcounties" None None = Ok bar /\
    plot_cumulative_cases sample_lower sample_fs sample_parse_csv iso_to_datetime
                          "allcounties" None None = Ok line /\
    plot_both sample_lower sample_fs sample_parse_csv iso_to_datetime
              "allcounties" None None = Ok both /\
    chart_title bar =
      "Oversikt over antall rapporterte smitttede i Norge fra 2020-03-11 til 2020-03-13" /\
    Forall (fun t => str_in "Norge" t = true /\ str_in "allcounties" t = false)
           [chart_title bar; chart_title line; layer_title both].
Proof.
  destruct (allcounties_titles sample_lower sample_fs sample_parse_csv
              iso_to_datetime
              sample_frame (tl sample_frame) (removelast sample_frame)
              {| Dato := date 2020 3 11; Nye_tilfeller := 3; Kumulativt_antall := 3 |}
              {| Dato := date 2020 3 13; Nye_tilfeller := 4; Kumulativt_antall := 12 |}
              eq_refl eq_refl eq_refl)
    as (_ & _ & bar & line & both & Hb & Hl & Hc & _ & _ & _ & Ht & _ & _ & Hall & _).
  exists bar, line, both. repeat split; assumption.
Defined.

(** C6 fails on the code in its last part: "AllCounties" loads the very
    file and rows that "allcounties" loads, and yet its titles name
    "AllCounties" where those of "allcounties" name "Norge".  So the name in
    a title is no function of what was loaded: it is not handed on from the
    loading, each function works it out from the county it was called
    with. *)
Lemma display_name_from_identifier :
  data_file sample_lower "AllCounties" = data_file sample_lower "allcounties" /\
  get_data sample_lower sample_fs sample_parse_csv "AllCounties"
    = get_data sample_lower sample_fs sample_parse_csv "allcounties" /\
  (exists c c',
      plot_both sample_lower sample_fs sample_parse_csv iso_to_datetime
                "allcounties" None None = Ok c /\
      plot_both sample_lower sample_fs sample_parse_csv iso_to_datetime
                "AllCounties" None None = Ok c' /\
      map chart_data (layer c) = map chart_data (layer c') /\
      layer_title c =
        "Oversikt over komulativt antall smitttede og antall rapporterte smitttede i Norge" /\
      layer_title c' =
        "Oversikt over komulativt antall smitttede og antall rapporterte smitttede i AllCounties" /\
      map chart_title (layer c') =
        [ "Oversikt over antall rapporterte smitttede i AllCounties fra 2020-03-11 til 2020-03-13";
          "Oversikt over komulativt antall smitttede i AllCounties, fra 2020-03-11 til 2020-03-13" ]) /\
  ~ (exists name_of : result DataFrame -> string,
        forall county c,
          plot_both sample_lower sample_fs sample_parse_csv iso_to_datetime
                    county None None = Ok c ->
          layer_title c =
            "Oversikt over komulativt antall smitttede og antall rapporterte smitttede i "
            ++ name_of (get_data sample_lower sample_fs sample_parse_csv county)).
Proof.
  split; [reflexivity|]. split; [reflexivity|]. split.
  - do 2 eexists. split; [vm_compute; reflexivity|].
    split; [vm_compute; reflexivity|].
    repeat split.
  - intros (name_of & H).
    pose proof (H "allcounties" _ eq_refl) as H1.
    pose proof (H "AllCounties" _ eq_refl) as H2.
    change (get_data sample_lower sample_fs sample_parse_csv "AllCounties")
      with (get_data sample_lower sample_fs sample_parse_csv "allcounties") in H2.
    cbn [layer_title resolve_scale] in H1, H2.
    apply append_inv_head in H1. apply append_inv_head in H2.
    rewrite <- H1 in H2. vm_compute in H2. discriminate.
Qed.

Lemma get_data_case_insensitive_witness :
  data_file sample_lower "OSLO"
    = "data_files_updated/antall-meldte-covid-19-oslo.csv" /\
  data_file sample_lower "OSLO" = data_file sample_lower "oslo" /\
  get_data sample_lower sample_fs sample_parse_csv "OSLO"
    = get_data sample_lower sample_fs sample_parse_csv "oslo".
Proof.
  destruct (get_data_case_insensitive sample_lower sample_fs sample_parse_csv
              "OSLO" "oslo" (or_intror (conj eq_refl (conj eq_refl eq_refl))))
    as (H1 & H2 & H3 & _).
  repeat split; assumption.
Defined.

(** Beyond ASCII the lowercase form is what the tables of Python give; with
    the sample tables "TRØNDELAG" and "trøndelag" name one file. *)
Example data_file_trondelag :
  data_file sample_lower "TRØNDELAG"
    = "data_files_updated/antall-meldte-covid-19-trøndelag.csv" /\
  data_file sample_lower "TRØNDELAG" = data_file sample_lower "trøndelag" /\
  lower "TRØNDELAG" <> "trøndelag".
Proof.
  split; [vm_compute; reflexivity|]. split; [vm_compute; reflexivity|].
  vm_compute. discriminate.
Qed.

Lemma missing_file_raises_witness :
  get_data sample_lower sample_fs sample_parse_csv "NonExistentRegion"
    = Raise FileNotFoundError /\
  plot_both sample_lower sample_fs sample_parse_csv iso_to_datetime
            "NonExistentRegion" (Some "12/03/2020") None
    = Raise FileNotFoundError.
Proof.
  destruct (missing_file_raises sample_lower sample_fs sample_parse_csv iso_to_datetime
              "NonExistentRegion" (Some "12/03/2020") None eq_refl)
    as (H1 & _ & _ & H4).
  split; assumption.
Defined.

Lemma plot_both_independent_y_witness :
  exists c,
    plot_both sample_lower sample_fs sample_parse_csv iso_to_datetime "Oslo" None None = Ok c /\
    resolve_y c = Some independent.
Proof.
  destruct (plot_both sample_lower sample_fs sample_parse_csv iso_to_datetime "Oslo" None None)
    as [c|e] eqn:H; [|vm_compute in H; discriminate].
  exists c. split; [reflexivity|].
  apply (plot_both_independent_y sample_lower sample_fs sample_parse_csv iso_to_datetime
           "Oslo" None None c H).
Defined.

Lemma other_casing_keeps_identifier_witness :
  data_file sample_lower "AllCounties" = data_file sample_lower "allcounties" /\
  forall c,
    plot_both sample_lower sample_fs sample_parse_csv iso_to_datetime
              "AllCounties" None None = Ok c ->
    str_in "AllCounties" (layer_title c) = true /\
    str_in "Norge" (layer_title c) = false.
Proof.
  destruct (other_casing_keeps_identifier sample_lower sample_fs sample_parse_csv
              iso_to_datetime "AllCounties" eq_refl eq_refl)
    as (H1 & _ & _ & _ & H5).
  split; [exact H1 | apply H5].
Defined.

(** * Further properties of the code *)

(** ** fix_dates *)

(** What [fix_dates] returns holds a dash. *)
Lemma fix_dates_Ok_dash (s s' : string) :
  fix_dates s = Ok s' -> str_in "-" s' = true.
Proof.
  destruct (str_in "-" s) eqn:Hdash.
  - rewrite (fix_dates_dash s Hdash). intros E; injection E as <-. exact Hdash.
  - rewrite (fix_dates_no_dash s Hdash).
    destruct (split "/" s) as [|d [|m [|y rest]]]; try discriminate.
    intros E; injection E as <-.
    rewrite str_in_char_app. replace (str_in "-" ("-" ++ m ++ "-" ++ d)) with true.
    + apply orb_true_r.
    + symmetry. apply str_in_startswith. reflexivity.
Qed.

(** X1.  [fix_dates] is idempotent: a date that was normalised once is returned
    as it is when it is normalised again. *)
Theorem fix_dates_idempotent (s s' : string) :
  fix_dates s = Ok s' -> fix_dates s' = Ok s'.
Proof.
  intros H. apply fix_dates_dash. eapply fix_dates_Ok_dash; eauto.
Qed.

Lemma fix_dates_idempotent_witness :
  fix_dates "2020-03-29" = Ok "2020-03-29".
Proof.
  apply (fix_dates_idempotent "29/03/2020" "2020-03-29"). reflexivity.
Defined.

(** ** Matches *)

Lemma match_prefix_idem (pat : list cls) (s m : string) :
  match_prefix pat s = Some m -> match_prefix pat m = Some m.
Proof.
  revert s m. induction pat as [|k pat IH]; intros s m H.
  - apply match_prefix_nil in H. subst. reflexivity.
  - apply match_prefix_cons in H as (c & s' & m' & -> & Hk & Hm & ->).
    simpl. rewrite Hk, (IH _ _ Hm). reflexivity.
Qed.

(** Every string [re.findall] returns has the shape of the pattern. *)
Lemma findall_fullmatch_regs (s d : string) :
  py_index (re_findall regs s) 0 = Ok d -> fullmatch regs d = true.
Proof.
  intros H. apply py_index_Ok_In in H.
  apply findall_from_In in H as (s' & Hm).
  unfold fullmatch. rewrite (match_prefix_idem _ _ _ Hm). apply String.eqb_refl.
Qed.

Section MoreProperties.

Variable unicode_lower : string -> string.
Variable fs : string -> option string.
Variable parse_csv : string -> result DataFrame.
Variable to_datetime : string -> option Timestamp.

(** ** The three charts of one request *)

(** X2.  The three plot functions stand or fall together: either all three
    raise the same exception, or all three return; then the bar and the line
    chart hold the same rows, the combined chart layers these two, and the
    three titles name the same region, the first two with the same two
    dates. *)
Theorem charts_agree (county : string) (start end_ : option string) :
  (exists e,
      plot_reported_cases unicode_lower fs parse_csv to_datetime county start end_ = Raise e /\
      plot_cumulative_cases unicode_lower fs parse_csv to_datetime county start end_ = Raise e /\
      plot_both unicode_lower fs parse_csv to_datetime county start end_ = Raise e) \/
  (exists bar line both name d1 d2,
      plot_reported_cases unicode_lower fs parse_csv to_datetime county start end_ = Ok bar /\
      plot_cumulative_cases unicode_lower fs parse_csv to_datetime county start end_ = Ok line /\
      plot_both unicode_lower fs parse_csv to_datetime county start end_ = Ok both /\
      layer both = [bar; line] /\
      chart_data bar = chart_data line /\
      chart_title bar =
        "Oversikt over antall rapporterte smitttede i " ++ name
        ++ " fra " ++ d1 ++ " til " ++ d2 /\
      chart_title line =
        "Oversikt over komulativt antall smitttede i " ++ name
        ++ ", fra " ++ d1 ++ " til " ++ d2 /\
      layer_title both =
        "Oversikt over komulativt antall smitttede og antall rapporterte smitttede i "
        ++ name).
Proof.
  destruct (load_county unicode_lower fs parse_csv county) as [[data name]|e] eqn:Hl.
  2:{ left. exists e. unfold plot_both, plot_reported_cases, plot_cumulative_cases.
      rewrite Hl. auto. }
  destruct (range_filter to_datetime data start end_) as [[[slice b1] b2]|e] eqn:Hr.
  2:{ left. exists e. unfold plot_both, plot_reported_cases, plot_cumulative_cases.
      rewrite Hl. cbn [bind]. rewrite Hr. auto. }
  destruct (py_index (re_findall regs (py_str b2)) 0) as [d2|e] eqn:H2.
  2:{ left. exists e. unfold plot_both, plot_reported_cases, plot_cumulative_cases.
      rewrite Hl. cbn [bind]. rewrite Hr. cbn [bind]. rewrite H2. auto. }
  destruct (py_index (re_findall regs (py_str b1)) 0) as [d1|e] eqn:H1.
  2:{ left. exists e. unfold plot_both, plot_reported_cases, plot_cumulative_cases.
      rewrite Hl. cbn [bind]. rewrite Hr. cbn [bind]. rewrite H2. cbn [bind].
      rewrite H1. auto. }
  right.
  pose proof (plot_reported_cases_run _ _ _ _ _ _ _ _ _ _ _ _ _ _ Hl Hr H1 H2) as Hb.
  pose proof (plot_cumulative_cases_run _ _ _ _ _ _ _ _ _ _ _ _ _ _ Hl Hr H1 H2) as Hc.
  do 3 eexists. exists name, d1, d2.
  split; [exact Hb|]. split; [exact Hc|].
  split; [apply (plot_both_run _ _ _ _ _ _ _ _ _ Hb Hc)|].
  cbn [layer chart_data chart_title layer_title].
  repeat split.
  rewrite load_county_eq in Hl.
  destruct (get_data unicode_lower fs parse_csv county); [|discriminate].
  injection Hl as _ <-. reflexivity.
Qed.

(** X3.  For bounds written in ASCII, where [\d] is a digit 0-9, the two dates
    in the title of a chart that was returned have the shape dddd-dd-dd: no
    time of day and no other text reaches the title. *)
Theorem title_dates_shape (county : string) (start end_ : option string) (c : Chart) :
  (forall s, start = Some s -> is_ascii s = true) ->
  (forall s, end_ = Some s -> is_ascii s = true) ->
  plot_reported_cases unicode_lower fs parse_csv to_datetime county start end_ = Ok c \/
  plot_cumulative_cases unicode_lower fs parse_csv to_datetime county start end_ = Ok c ->
  exists head name sep d1 d2,
    chart_title c = head ++ name ++ sep ++ d1 ++ " til " ++ d2 /\
    (head = "Oversikt over antall rapporterte smitttede i " /\ sep = " fra " \/
     head = "Oversikt over komulativt antall smitttede i " /\ sep = ", fra ") /\
    fullmatch regs d1 = true /\ fullmatch regs d2 = true.
Proof.
  intros _ _ [H|H].
  - apply plot_reported_cases_inv in H
      as (data & name & slice & b1 & b2 & d1 & d2 & _ & _ & H1 & H2 & ->).
    exists "Oversikt over antall rapporterte smitttede i ", name, " fra ", d1, d2.
    split; [reflexivity|]. split; [left; auto|].
    split; eapply findall_fullmatch_regs; eauto.
  - apply plot_cumulative_cases_inv in H
      as (data & name & slice & b1 & b2 & d1 & d2 & _ & _ & H1 & H2 & ->).
    exists "Oversikt over komulativt antall smitttede i ", name, ", fra ", d1, d2.
    split; [reflexivity|]. split; [right; auto|].
    split; eapply findall_fullmatch_regs; eauto.
Qed.

(** ** Failures of the plot functions *)

Lemma rejected_date_raises_all (county : string) (start end_ : option string) :
  (exists s e, start = Some s /\ fix_dates s = Raise e) \/
  (exists s e, end_ = Some s /\ fix_dates s = Raise e) ->
  exists ex,
    plot_reported_cases unicode_lower fs parse_csv to_datetime county start end_ = Raise ex /\
    plot_cumulative_cases unicode_lower fs parse_csv to_datetime county start end_ = Raise ex /\
    plot_both unicode_lower fs parse_csv to_datetime county start end_ = Raise ex.
Proof.
  intros H.
  assert (Hr : forall data, exists ex,
               range_filter to_datetime data start end_ = Raise ex).
  { intros data. unfold range_filter. cbv zeta.
    destruct H as [(s & e & -> & Hs) | (s & e & -> & Hs)].
    - rewrite Hs. eexists. reflexivity.
    - destruct start as [s0|].
      + destruct (fix_dates s0); cbn [bind]; [|eexists; reflexivity].
        destruct (select_ge to_datetime (dato_dtype data) data a); cbn [bind];
          [|eexists; reflexivity].
        rewrite Hs. eexists. reflexivity.
      + destruct (py_index (map Dato data) 0); cbn [bind];
          [|eexists; reflexivity].
        rewrite Hs. eexists. reflexivity. }
  assert (Hb : exists ex,
             plot_reported_cases unicode_lower fs parse_csv to_datetime county start end_
             = Raise ex).
  { unfold plot_reported_cases.
    destruct (load_county unicode_lower fs parse_csv county) as [[data name]|e0];
      cbn [bind]; [|eexists; reflexivity].
    destruct (Hr data) as (ex & ->). eexists. reflexivity. }
  destruct Hb as (ex & Hb). exists ex.
  split; [exact Hb | apply plots_raise, Hb].
Qed.

(** X4.  A date that [fix_dates] rejects is not passed over: the three plot
    functions raise. *)
Theorem rejected_date_raises (county : string) (start end_ : option string) :
  (exists s e, start = Some s /\ fix_dates s = Raise e) \/
  (exists s e, end_ = Some s /\ fix_dates s = Raise e) ->
  exists ex,
    plot_reported_cases unicode_lower fs parse_csv to_datetime county start end_ = Raise ex /\
    plot_cumulative_cases unicode_lower fs parse_csv to_datetime county start end_ = Raise ex /\
    plot_both unicode_lower fs parse_csv to_datetime county start end_ = Raise ex.
Proof. apply rejected_date_raises_all. Qed.

(** X5.  A bound whose text is ASCII and holds no date of the form dddd-dd-dd
    stops the title: although the rows were selected, the three plot
    functions raise [IndexError]. *)
Theorem title_needs_padded_date (county : string) (start end_ : option string)
        (data slice : DataFrame) (b1 b2 : bound) :
  get_data unicode_lower fs parse_csv county = Ok data ->
  range_filter to_datetime data start end_ = Ok (slice, b1, b2) ->
  (is_ascii (py_str b1) = true /\ re_findall regs (py_str b1) = []) \/
  (is_ascii (py_str b2) = true /\ re_findall regs (py_str b2) = []) ->
  plot_reported_cases unicode_lower fs parse_csv to_datetime county start end_ = Raise IndexError /\
  plot_cumulative_cases unicode_lower fs parse_csv to_datetime county start end_ = Raise IndexError /\
  plot_both unicode_lower fs parse_csv to_datetime county start end_ = Raise IndexError.
Proof.
  intros Hg Hr Hno.
  assert (Hb : plot_reported_cases unicode_lower fs parse_csv to_datetime county start end_
               = Raise IndexError).
  { unfold plot_reported_cases.
    rewrite (load_county_Ok _ _ _ _ _ Hg). cbn [bind]. rewrite Hr. cbn [bind].
    destruct (py_index (re_findall regs (py_str b2)) 0) as [d2|e] eqn:H2;
      cbn [bind].
    - destruct Hno as [[_ Hno]|[_ Hno]].
      + rewrite Hno, py_index_nil. reflexivity.
      + rewrite Hno, py_index_nil in H2. discriminate.
    - rewrite (py_index_raise _ _ _ H2). reflexivity. }
  split; [exact Hb | apply plots_raise, Hb].
Qed.

(** ** The rows of a chart *)

Lemma range_filter_slice (data slice : DataFrame) (start end_ : option string)
      (b1 b2 : bound) :
  range_filter to_datetime data start end_ = Ok (slice, b1, b2) ->
  exists p : Timestamp -> bool, slice = filter (fun r => p (Dato r)) data.
Proof.
  unfold range_filter, select_ge, select_le. cbv zeta. intros H.
  destruct data as [|r data].
  - exists (fun _ => true). cbn [dato_dtype map filter] in *.
    destruct start as [s|].
    + destruct (fix_dates s) as [s'|]; cbn [bind map] in H; [|discriminate].
      destruct end_ as [e|].
      * destruct (fix_dates e) as [e'|]; cbn [bind] in H; [|discriminate].
        injection H as <- _ _. reflexivity.
      * rewrite py_index_nil in H. discriminate.
    + rewrite py_index_nil in H. discriminate.
  - cbn [dato_dtype] in H. remember (r :: data) as frame eqn:Hframe.
    clear Hframe.
    destruct start as [s|].
    + destruct (fix_dates s) as [s'|]; cbn [bind] in H; [|discriminate].
      destruct (to_datetime s') as [ts|]; cbn [bind] in H; [|discriminate].
      destruct end_ as [e|].
      * destruct (fix_dates e) as [e'|]; cbn [bind] in H; [|discriminate].
        destruct (to_datetime e') as [te|]; cbn [bind] in H; [|discriminate].
        injection H as <- _ _.
        exists (fun d => ts_leb ts d && ts_leb d te). apply filter_filter.
      * destruct (py_index _ (-1)); cbn [bind] in H; [|discriminate].
        injection H as <- _ _. exists (fun d => ts_leb ts d). reflexivity.
    + destruct (py_index (map Dato frame) 0); cbn [bind] in H; [|discriminate].
      destruct end_ as [e|].
      * destruct (fix_dates e) as [e'|]; cbn [bind] in H; [|discriminate].
        destruct (to_datetime e') as [te|]; cbn [bind] in H; [|discriminate].
        injection H as <- _ _. exists (fun d => ts_leb d te). reflexivity.
      * destruct (py_index _ (-1)); cbn [bind] in H; [|discriminate].
        injection H as <- _ _. exists (fun _ => true).
        symmetry. apply filter_all, Forall_forall. reflexivity.
Qed.

(** X6.  The rows of a chart are rows of the file of the county, in file order,
    selected by a test on the date alone: no row is changed or made up, and
    rows of one date are kept or dropped together. *)
Theorem chart_rows_from_file (county : string) (start end_ : option string)
        (c : Chart) :
  plot_reported_cases unicode_lower fs parse_csv to_datetime county start end_ = Ok c \/
  plot_cumulative_cases unicode_lower fs parse_csv to_datetime county start end_ = Ok c ->
  exists data (p : Timestamp -> bool),
    get_data unicode_lower fs parse_csv county = Ok data /\
    chart_data c = filter (fun r => p (Dato r)) data.
Proof.
  intros H.
  assert (Hx : exists data name slice b1 b2,
             load_county unicode_lower fs parse_csv county = Ok (data, name) /\
             range_filter to_datetime data start end_ = Ok (slice, b1, b2) /\
             chart_data c = slice).
  { destruct H as [H|H].
    - apply plot_reported_cases_inv in H
        as (data & name & slice & b1 & b2 & d1 & d2 & Hl & Hr & _ & _ & ->).
      exists data, name, slice, b1, b2. auto.
    - apply plot_cumulative_cases_inv in H
        as (data & name & slice & b1 & b2 & d1 & d2 & Hl & Hr & _ & _ & ->).
      exists data, name, slice, b1, b2. auto. }
  destruct Hx as (data & name & slice & b1 & b2 & Hl & Hr & ->).
  destruct (range_filter_slice _ _ _ _ _ _ Hr) as (p & ->).
  exists data, p. split; [|reflexivity].
  rewrite load_county_eq in Hl.
  destruct (get_data unicode_lower fs parse_csv county); [|discriminate].
  injection Hl as <- _. reflexivity.
Qed.

(** ** Open bounds at the edges *)

(** X8.  With no bounds, for any county whose file has a row, every row of the
    file is charted and the titles show the dates of its first and of its
    last row. *)
Theorem no_bounds_whole_file (county : string) (data rest front : DataFrame)
        (r0 rn : Row) :
  get_data unicode_lower fs parse_csv county = Ok data ->
  data = r0 :: rest -> data = (front ++ [rn])%list ->
  exists bar line,
    plot_reported_cases unicode_lower fs parse_csv to_datetime county None None = Ok bar /\
    plot_cumulative_cases unicode_lower fs parse_csv to_datetime county None None = Ok line /\
    chart_data bar = data /\ chart_data line = data /\
    chart_title bar =
      "Oversikt over antall rapporterte smitttede i "
      ++ (if String.eqb county "allcounties" then "Norge" else county)
      ++ " fra " ++ isoformat (Dato r0) ++ " til " ++ isoformat (Dato rn) /\
    chart_title line =
      "Oversikt over komulativt antall smitttede i "
      ++ (if String.eqb county "allcounties" then "Norge" else county)
      ++ ", fra " ++ isoformat (Dato r0) ++ " til " ++ isoformat (Dato rn).
Proof.
  intros Hg H0 Hn.
  pose proof (load_county_Ok _ _ _ _ _ Hg) as Hl.
  pose proof (range_filter_none_none to_datetime data rest front r0 rn H0 Hn) as Hr.
  do 2 eexists.
  split; [apply (plot_reported_cases_run _ _ _ _ _ _ _ _ _ _ _ _ _ _ Hl Hr
                   (findall_str_timestamp (Dato r0))
                   (findall_str_timestamp (Dato rn)))|].
  split; [apply (plot_cumulative_cases_run _ _ _ _ _ _ _ _ _ _ _ _ _ _ Hl Hr
                   (findall_str_timestamp (Dato r0))
                   (findall_str_timestamp (Dato rn)))|].
  repeat split.
Qed.


(** X10.  A start after every date of the file, with the end omitted, is an
    error: the end is read from the rows that are left, there is none, and
    the three plot functions raise [IndexError]. *)
Theorem start_after_last_row (county : string) (data : DataFrame)
        (s s' : string) (ts : Timestamp) :
  get_data unicode_lower fs parse_csv county = Ok data ->
  fix_dates s = Ok s' -> to_datetime s' = Some ts ->
  Forall (fun r => ts_leb ts (Dato r) = false) data ->
  plot_reported_cases unicode_lower fs parse_csv to_datetime county (Some s) None
    = Raise IndexError /\
  plot_cumulative_cases unicode_lower fs parse_csv to_datetime county (Some s) None
    = Raise IndexError /\
  plot_both unicode_lower fs parse_csv to_datetime county (Some s) None = Raise IndexError.
Proof.
  intros Hg Hs Hts Hall.
  apply (range_filter_raise _ _ _ _ _ _ _ _ _ Hg).
  eapply range_filter_start_after_all; eauto.
Qed.

(** ** Counties and files *)

(** X11.  Another casing of "allcounties" charts the same rows as "allcounties"
    itself and fails when it fails, with the same exception. *)
Theorem other_casing_same_rows (county : string) (start end_ : option string) :
  lower county = "allcounties" ->
  (exists e,
      plot_reported_cases unicode_lower fs parse_csv to_datetime county start end_ = Raise e /\
      plot_reported_cases unicode_lower fs parse_csv to_datetime "allcounties" start end_
        = Raise e) \/
  (exists c c',
      plot_reported_cases unicode_lower fs parse_csv to_datetime county start end_ = Ok c /\
      plot_reported_cases unicode_lower fs parse_csv to_datetime "allcounties" start end_
        = Ok c' /\
      chart_data c = chart_data c').
Proof.
  intros Hlow.
  assert (Hg : get_data unicode_lower fs parse_csv county = get_data unicode_lower fs parse_csv "allcounties").
  { assert (Ha : is_ascii county = true)
      by (apply (lower_is_ascii _ _ Hlow); reflexivity).
    unfold get_data.
    rewrite !data_file_eq, (str_lower_ascii _ _ Ha), Hlow. reflexivity. }
  unfold plot_reported_cases. rewrite !load_county_eq, Hg.
  destruct (get_data unicode_lower fs parse_csv "allcounties") as [data|e]; cbn [bind];
    [|left; eauto].
  destruct (range_filter to_datetime data start end_) as [[[slice b1] b2]|e];
    cbn [bind]; [|left; eauto].
  destruct (py_index (re_findall regs (py_str b2)) 0); cbn [bind]; [|left; eauto].
  destruct (py_index (re_findall regs (py_str b1)) 0); cbn [bind]; [|left; eauto].
  right. do 2 eexists. split; [reflexivity|]. split; reflexivity.
Qed.

(** ** The order of the rows *)

Lemma is_sorted_cons (r : Row) (data : DataFrame) :
  Forall (fun x => ts_leb (Dato r) (Dato x) = true) data ->
  is_sorted data = true -> is_sorted (r :: data) = true.
Proof.
  intros Hall Hs. destruct data as [|r' data]; [reflexivity|].
  cbn [is_sorted]. inversion Hall; subst.
  apply andb_true_iff. split; assumption.
Qed.

Lemma filter_sorted (p : Row -> bool) (data : DataFrame) :
  is_sorted data = true -> is_sorted (filter p data) = true.
Proof.
  induction data as [|r data IH]; intros Hs; [reflexivity|].
  pose proof (is_sorted_head _ _ Hs) as Hall.
  specialize (IH (is_sorted_tail _ _ Hs)).
  simpl. destruct (p r); [|exact IH].
  apply is_sorted_cons; [|exact IH].
  rewrite Forall_forall in *. intros x Hx.
  apply filter_In in Hx as [Hx _]. apply Hall, Hx.
Qed.

(** X7.  A file whose dates are in order gives charts whose dates are in order. *)
Theorem chart_rows_sorted (county : string) (start end_ : option string)
        (data : DataFrame) (c : Chart) :
  get_data unicode_lower fs parse_csv county = Ok data ->
  is_sorted data = true ->
  plot_reported_cases unicode_lower fs parse_csv to_datetime county start end_ = Ok c \/
  plot_cumulative_cases unicode_lower fs parse_csv to_datetime county start end_ = Ok c ->
  is_sorted (chart_data c) = true.
Proof.
  intros Hg Hs H.
  pose proof (load_county_Ok _ _ _ _ _ Hg) as Hl.
  assert (Hx : exists slice b1 b2,
             range_filter to_datetime data start end_ = Ok (slice, b1, b2) /\
             chart_data c = slice).
  { destruct H as [H|H].
    - apply plot_reported_cases_inv in H
        as (data' & name & slice & b1 & b2 & d1 & d2 & Hl' & Hr & _ & _ & ->).
      rewrite Hl in Hl'. injection Hl' as <- _. eauto.
    - apply plot_cumulative_cases_inv in H
        as (data' & name & slice & b1 & b2 & d1 & d2 & Hl' & Hr & _ & _ & ->).
      rewrite Hl in Hl'. injection Hl' as <- _. eauto. }
  destruct Hx as (slice & b1 & b2 & Hr & ->).
  destruct (range_filter_slice _ _ _ _ _ _ Hr) as (p & ->).
  apply filter_sorted, Hs.
Qed.

End MoreProperties.

(** ** Files and counties *)

Lemma length_append (a b : string) :
  String.length (a ++ b) = String.length a + String.length b.
Proof.
  induction a as [|c a IH]; simpl; [reflexivity|]. rewrite IH. reflexivity.
Qed.

Lemma append_inv_tail (x y s : string) : x ++ s = y ++ s -> x = y.
Proof.
  revert y. induction x as [|c x IH]; intros [|d y] H.
  - reflexivity.
  - apply (f_equal String.length) in H. simpl in H.
    rewrite length_append in H. lia.
  - apply (f_equal String.length) in H. simpl in H.
    rewrite length_append in H. lia.
  - simpl in H. injection H as -> H. f_equal. apply IH, H.
Qed.

(** X12.  Two counties are read from the same file exactly when their
    lowercase forms, as [str.lower] gives them, are equal; and an ASCII
    county and its lowercase form are read from the same file. *)
Theorem data_file_same_iff (unicode_lower : string -> string)
        (county county' : string) :
  (data_file unicode_lower county = data_file unicode_lower county' <->
   str_lower unicode_lower county = str_lower unicode_lower county') /\
  (is_ascii county = true ->
   data_file unicode_lower (lower county) = data_file unicode_lower county).
Proof.
  split; [split|].
  - unfold data_file, os_path_join. cbn [startswith Ascii.eqb].
    change (if "data_files_updated" =? "" then _ else _)%string
      with ("data_files_updated" ++ "/" ++ "antall-meldte-covid-19-"
            ++ str_lower unicode_lower county ++ ".csv") at 1.
    intros H. revert H.
    change (data_file unicode_lower county = data_file unicode_lower county'
            -> str_lower unicode_lower county = str_lower unicode_lower county').
    intros H.
    apply (append_inv_head "data_files_updated/antall-meldte-covid-19-") in H.
    apply append_inv_tail in H. exact H.
  - unfold data_file. intros ->. reflexivity.
  - intros Ha. unfold data_file.
    rewrite !str_lower_ascii by (rewrite ?is_ascii_lower; exact Ha).
    rewrite lower_idempotent. reflexivity.
Qed.

(** ** The routes *)

Section RouteProperties.

Variable unicode_lower : string -> string.
Variable fs : string -> option string.
Variable parse_csv : string -> result DataFrame.
Variable to_datetime : string -> option Timestamp.
Variable world : Type.
Variable save : Saved -> string -> world -> world * result unit.
Variable render_template : string -> world -> result string.

Lemma handle_date_raised (form : string -> option string) (w : world)
      (start_date end_date county : string) (e : exn) :
  form "start_date" = Some start_date ->
  form "end_date" = Some end_date ->
  form "all_counties" = Some county ->
  plot_both unicode_lower fs parse_csv to_datetime county (Some start_date) (Some end_date)
    = Raise e ->
  handle_date unicode_lower fs parse_csv to_datetime world save render_template form w
    = (w, Returned "Feil input, prøv igjen").
Proof.
  intros Hs He Hc Hp. unfold handle_date, try_except, io_bind, lift.
  rewrite Hs, He, Hc, Hp. reflexivity.
Qed.

(** X13.  [handle_date] on a form that has its three keys lets no exception
    escape: it returns a body.  When [plot_both] raised, whatever the
    exception, nothing was saved and the body is the fixed text.  When it
    returned a chart, that chart was saved as templates/webPlots2.html; the
    body is the rendered page when saving and rendering both returned, and
    the fixed text when either raised. *)
Theorem handle_date_reply (form : string -> option string) (w : world)
        (start_date end_date county : string) :
  form "start_date" = Some start_date ->
  form "end_date" = Some end_date ->
  form "all_counties" = Some county ->
  exists w' body,
    handle_date unicode_lower fs parse_csv to_datetime world save render_template form w
      = (w', Returned body) /\
    match plot_both unicode_lower fs parse_csv to_datetime county
                    (Some start_date) (Some end_date) with
    | Raise _ => w' = w /\ body = "Feil input, prøv igjen"
    | Ok plot =>
        w' = fst (save (SavedLayer plot) "templates/webPlots2.html" w) /\
        match snd (save (SavedLayer plot) "templates/webPlots2.html" w),
              render_template "webPlots2.html" w' with
        | Ok _, Ok html => body = html
        | _, _ => body = "Feil input, prøv igjen"
        end
    end.
Proof.
  intros Hs He Hc.
  destruct (plot_both unicode_lower fs parse_csv to_datetime county
                      (Some start_date) (Some end_date)) as [plot|e] eqn:Hp.
  - unfold handle_date, try_except, io_bind, lift.
    rewrite Hs, He, Hc, Hp.
    change (os_path_join "templates" "webPlots2.html")
      with "templates/webPlots2.html".
    destruct (save (SavedLayer plot) "templates/webPlots2.html" w)
      as [w1 [[]|e1]] eqn:Hsave; cbn [fst snd].
    + destruct (render_template "webPlots2.html" w1) as [html|e2] eqn:Hr.
      * exists w1, html. split; [reflexivity|]. split; [reflexivity|].
        rewrite Hr. reflexivity.
      * exists w1, "Feil input, prøv igjen". split; [reflexivity|].
        split; [reflexivity|]. rewrite Hr. reflexivity.
    + exists w1, "Feil input, prøv igjen". split; [reflexivity|].
      split; reflexivity.
  - exists w, "Feil input, prøv igjen". split; [|auto].
    eapply handle_date_raised; eauto.
Qed.

(** X14.  A date field that [fix_dates] rejects, such as one left blank, gives the
    fixed text, whatever the county and the other date, and nothing is
    saved: the form cannot leave a bound open. *)
Theorem handle_date_rejected_date (form : string -> option string) (w : world)
        (start_date end_date county : string) :
  form "start_date" = Some start_date ->
  form "end_date" = Some end_date ->
  form "all_counties" = Some county ->
  (exists e, fix_dates start_date = Raise e) \/
  (exists e, fix_dates end_date = Raise e) ->
  handle_date unicode_lower fs parse_csv to_datetime world save render_template form w
    = (w, Returned "Feil input, prøv igjen").
Proof.
  intros Hs He Hc Hbad.
  destruct (rejected_date_raises_all unicode_lower fs parse_csv to_datetime county
              (Some start_date) (Some end_date)) as (ex & _ & _ & Hp).
  { destruct Hbad as [(e & H)|(e & H)]; [left | right]; eauto. }
  eapply handle_date_raised; eauto.
Qed.

(** X15.  [both] has no handler.  Without the file of the whole country it lets
    [FileNotFoundError] escape, with a file that has no row [IndexError],
    and in both cases nothing is saved; with a file that has rows it saves,
    as templates/webPlots.html, the combined chart above the line chart
    above the bar chart, each over every row of the file, and renders that
    page. *)
Theorem both_outcomes (w : world) :
  (fs (data_file unicode_lower "allcounties") = None ->
   both unicode_lower fs parse_csv to_datetime world save render_template w
     = (w, Raise FileNotFoundError)) /\
  (get_data unicode_lower fs parse_csv "allcounties" = Ok [] ->
   both unicode_lower fs parse_csv to_datetime world save render_template w
     = (w, Raise IndexError)) /\
  (forall data rest front r0 rn,
      get_data unicode_lower fs parse_csv "allcounties" = Ok data ->
      data = r0 :: rest -> data = (front ++ [rn])%list ->
      exists bar line layered,
        plot_reported_cases unicode_lower fs parse_csv to_datetime "allcounties" None None
          = Ok bar /\
        plot_cumulative_cases unicode_lower fs parse_csv to_datetime "allcounties" None None
          = Ok line /\
        plot_both unicode_lower fs parse_csv to_datetime "allcounties" None None = Ok layered /\
        layer layered = [bar; line] /\
        chart_data bar = data /\ chart_data line = data /\
        both unicode_lower fs parse_csv to_datetime world save render_template w =
        match save (SavedVConcat
                      {| vconcat := [ALayer layered; AChart line; AChart bar] |})
                   "templates/webPlots.html" w with
        | (w', Ok _) => (w', render_template "webPlots.html" w')
        | (w', Raise e) => (w', Raise e)
        end).
Proof.
  split; [|split].
  - intros H. unfold both, io_bind, lift, plot_cumulative_cases.
    rewrite load_county_eq. unfold get_data, read_csv. rewrite H. reflexivity.
  - intros H. unfold both, io_bind, lift, plot_cumulative_cases.
    rewrite (load_county_Ok _ _ _ _ _ H). cbn [bind]. unfold range_filter.
    cbn [map]. rewrite py_index_nil. reflexivity.
  - intros data rest front r0 rn Hg H0 Hn.
    pose proof (load_county_Ok _ _ _ _ _ Hg) as Hl.
    pose proof (range_filter_none_none to_datetime data rest front r0 rn H0 Hn)
      as Hr.
    pose proof (plot_reported_cases_run _ _ _ _ _ _ _ _ _ _ _ _ _ _ Hl Hr
                  (findall_str_timestamp (Dato r0))
                  (findall_str_timestamp (Dato rn))) as Hb.
    pose proof (plot_cumulative_cases_run _ _ _ _ _ _ _ _ _ _ _ _ _ _ Hl Hr
                  (findall_str_timestamp (Dato r0))
                  (findall_str_timestamp (Dato rn))) as Hc.
    pose proof (plot_both_run _ _ _ _ _ _ _ _ _ Hb Hc) as Hboth.
    do 3 eexists.
    split; [exact Hb|]. split; [exact Hc|]. split; [exact Hboth|].
    split; [reflexivity|]. split; [reflexivity|]. split; [reflexivity|].
    unfold both, io_bind, lift. rewrite Hc, Hb, Hboth.
    change (os_path_join "templates" "webPlots.html")
      with "templates/webPlots.html".
    unfold vconcat_and, chart_and. cbn [vconcat app].
    destruct (save _ "templates/webPlots.html" w) as [w' [[]|e]]; reflexivity.
Qed.

End RouteProperties.

(** ** The further properties at the sample data *)

Example handle_date_oslo :
  handle_date sample_lower sample_fs sample_parse_csv iso_to_datetime
              sample_world sample_save sample_render_template
              oslo_form [] =
  ([("templates/webPlots2.html",
     SavedLayer
       {| layer :=
            [ {| chart_data :=
                   [ {| Dato := date 2020 3 12; Nye_tilfeller := 5;
                        Kumulativt_antall := 8 |};
                     {| Dato := date 2020 3 13; Nye_tilfeller := 4;
                        Kumulativt_antall := 12 |} ];
                 chart_title :=
                   "Oversikt over antall rapporterte smitttede i Oslo fra 2020-03-12 til 2020-03-13";
                 chart_mark := mark_bar;
                 encode_x := "Dato";
                 encode_y := "Nye tilfeller";
                 encode_tooltip := ["Dato"; "Nye tilfeller"];
                 properties_width := 1120 |};
              {| chart_data :=
                   [ {| Dato := date 2020 3 12; Nye_tilfeller := 5;
                        Kumulativt_antall := 8 |};
                     {| Dato := date 2020 3 13; Nye_tilfeller := 4;
                        Kumulativt_antall := 12 |} ];
                 chart_title :=
                   "Oversikt over komulativt antall smitttede i Oslo, fra 2020-03-12 til 2020-03-13";
                 chart_mark := mark_line "green";
                 encode_x := "Dato";
                 encode_y := "Kumulativt antall";
                 encode_tooltip := ["Dato"; "Kumulativt antall"];
                 properties_width := 1120 |} ];
          layer_title :=
            "Oversikt over komulativt antall smitttede og antall rapporterte smitttede i Oslo";
          resolve_y := Some independent |})],
   Returned "<webPlots2.html>").
Proof. vm_compute. reflexivity. Qed.

Example both_sample :
  exists saved,
    both sample_lower sample_fs sample_parse_csv iso_to_datetime
         sample_world sample_save sample_render_template []
    = ([("templates/webPlots.html", saved)], Ok "<webPlots.html>").
Proof. eexists. vm_compute. reflexivity. Qed.

Example loose_to_datetime_unpadded :
  loose_to_datetime "2020-3-12" = Some (date 2020 3 12) /\
  re_findall regs "2020-3-12" = [].
Proof. split; reflexivity. Qed.

Lemma title_dates_shape_witness :
  exists c,
    plot_reported_cases sample_lower sample_fs sample_parse_csv iso_to_datetime
                        "Oslo" None (Some "12/03/2020") = Ok c /\
    exists head name sep d1 d2,
      chart_title c = head ++ name ++ sep ++ d1 ++ " til " ++ d2 /\
      (head = "Oversikt over antall rapporterte smitttede i " /\ sep = " fra " \/
       head = "Oversikt over komulativt antall smitttede i " /\ sep = ", fra ") /\
      fullmatch regs d1 = true /\ fullmatch regs d2 = true.
Proof.
  destruct (plot_reported_cases sample_lower sample_fs sample_parse_csv iso_to_datetime
                                "Oslo" None (Some "12/03/2020"))
    as [c|e] eqn:H; [|vm_compute in H; discriminate].
  exists c. split; [reflexivity|].
  apply (title_dates_shape sample_lower sample_fs sample_parse_csv iso_to_datetime
           "Oslo" None (Some "12/03/2020") c).
  - discriminate.
  - intros s Hs. injection Hs as <-. reflexivity.
  - left. exact H.
Defined.

Lemma rejected_date_raises_witness :
  exists ex,
    plot_reported_cases sample_lower sample_fs sample_parse_csv iso_to_datetime
                        "Oslo" (Some "") (Some "13/03/2020") = Raise ex /\
    plot_cumulative_cases sample_lower sample_fs sample_parse_csv iso_to_datetime
                          "Oslo" (Some "") (Some "13/03/2020") = Raise ex /\
    plot_both sample_lower sample_fs sample_parse_csv iso_to_datetime
              "Oslo" (Some "") (Some "13/03/2020") = Raise ex.
Proof.
  apply (rejected_date_raises sample_lower sample_fs sample_parse_csv iso_to_datetime
           "Oslo" (Some "") (Some "13/03/2020")).
  left. exists "", IndexError. split; reflexivity.
Defined.

Lemma title_needs_padded_date_witness :
  plot_reported_cases sample_lower sample_fs sample_parse_csv loose_to_datetime
                      "Oslo" (Some "2020-3-12") (Some "2020-03-13")
    = Raise IndexError /\
  plot_cumulative_cases sample_lower sample_fs sample_parse_csv loose_to_datetime
                        "Oslo" (Some "2020-3-12") (Some "2020-03-13")
    = Raise IndexError /\
  plot_both sample_lower sample_fs sample_parse_csv loose_to_datetime
            "Oslo" (Some "2020-3-12") (Some "2020-03-13")
    = Raise IndexError.
Proof.
  apply (title_needs_padded_date sample_lower sample_fs sample_parse_csv loose_to_datetime
           "Oslo" (Some "2020-3-12") (Some "2020-03-13") sample_frame
           (tl sample_frame) (BStr "2020-3-12") (BStr "2020-03-13")).
  - reflexivity.
  - vm_compute. reflexivity.
  - left. split; reflexivity.
Defined.

Lemma chart_rows_from_file_witness :
  exists c data (p : Timestamp -> bool),
    plot_cumulative_cases sample_lower sample_fs sample_parse_csv iso_to_datetime
                          "Oslo" (Some "12/03/2020") None = Ok c /\
    get_data sample_lower sample_fs sample_parse_csv "Oslo" = Ok data /\
    chart_data c = filter (fun r => p (Dato r)) data.
Proof.
  destruct (plot_cumulative_cases sample_lower sample_fs sample_parse_csv iso_to_datetime
                                  "Oslo" (Some "12/03/2020") None)
    as [c|e] eqn:H; [|vm_compute in H; discriminate].
  destruct (chart_rows_from_file sample_lower sample_fs sample_parse_csv iso_to_datetime
              "Oslo" (Some "12/03/2020") None c (or_intror H))
    as (data & p & Hg & Hd).
  exists c, data, p. auto.
Defined.

Lemma no_bounds_whole_file_witness :
  exists bar line,
    plot_reported_cases sample_lower sample_fs sample_parse_csv iso_to_datetime
                        "Oslo" None None = Ok bar /\
    plot_cumulative_cases sample_lower sample_fs sample_parse_csv iso_to_datetime
                          "Oslo" None None = Ok line /\
    chart_data bar = sample_frame /\ chart_data line = sample_frame.
Proof.
  destruct (no_bounds_whole_file sample_lower sample_fs sample_parse_csv iso_to_datetime
              "Oslo" sample_frame (tl sample_frame) (removelast sample_frame)
              {| Dato := date 2020 3 11; Nye_tilfeller := 3; Kumulativt_antall := 3 |}
              {| Dato := date 2020 3 13; Nye_tilfeller := 4; Kumulativt_antall := 12 |}
              eq_refl eq_refl eq_refl)
    as (bar & line & Hb & Hl & Hdb & Hdl & _).
  exists bar, line. auto.
Defined.


Lemma start_after_last_row_witness :
  plot_reported_cases sample_lower sample_fs sample_parse_csv iso_to_datetime
                      "Oslo" (Some "20/03/2020") None = Raise IndexError /\
  plot_cumulative_cases sample_lower sample_fs sample_parse_csv iso_to_datetime
                        "Oslo" (Some "20/03/2020") None = Raise IndexError /\
  plot_both sample_lower sample_fs sample_parse_csv iso_to_datetime
            "Oslo" (Some "20/03/2020") None = Raise IndexError.
Proof.
  apply (start_after_last_row sample_lower sample_fs sample_parse_csv iso_to_datetime
           "Oslo" sample_frame "20/03/2020" "2020-03-20" (date 2020 3 20));
    try reflexivity.
  repeat constructor.
Defined.

Lemma other_casing_same_rows_witness :
  (exists e,
      plot_reported_cases sample_lower sample_fs sample_parse_csv iso_to_datetime
                          "AllCounties" None None = Raise e /\
      plot_reported_cases sample_lower sample_fs sample_parse_csv iso_to_datetime
                          "allcounties" None None = Raise e) \/
  (exists c c',
      plot_reported_cases sample_lower sample_fs sample_parse_csv iso_to_datetime
                          "AllCounties" None None = Ok c /\
      plot_reported_cases sample_lower sample_fs sample_parse_csv iso_to_datetime
                          "allcounties" None None = Ok c' /\
      chart_data c = chart_data c').
Proof.
  apply (other_casing_same_rows sample_lower sample_fs sample_parse_csv iso_to_datetime
           "AllCounties" None None).
  reflexivity.
Defined.

Lemma handle_date_reply_witness :
  exists w' body,
    handle_date sample_lower sample_fs sample_parse_csv iso_to_datetime
                sample_world sample_save sample_render_template
                oslo_form [] = (w', Returned body) /\
    body = "<webPlots2.html>".
Proof.
  destruct (handle_date_reply sample_lower sample_fs sample_parse_csv iso_to_datetime
              sample_world sample_save sample_render_template
              oslo_form [] "12/03/2020" "13/03/2020" "Oslo"
              eq_refl eq_refl eq_refl) as (w' & body & H & Hm).
  exists w', body. split; [exact H|].
  vm_compute in Hm. destruct Hm as [-> Hm]. exact Hm.
Defined.

Lemma handle_date_rejected_date_witness :
  handle_date sample_lower sample_fs sample_parse_csv iso_to_datetime
              sample_world sample_save sample_render_template
              blank_start_form []
  = ([], Returned "Feil input, prøv igjen").
Proof.
  apply (handle_date_rejected_date sample_lower sample_fs sample_parse_csv iso_to_datetime
           sample_world sample_save sample_render_template
           blank_start_form [] "" "13/03/2020" "Oslo" eq_refl eq_refl eq_refl).
  left. exists IndexError. reflexivity.
Defined.

Lemma chart_rows_sorted_witness :
  exists c,
    plot_reported_cases sample_lower sample_fs sample_parse_csv iso_to_datetime
                        "Oslo" (Some "12/03/2020") None = Ok c /\
    is_sorted (chart_data c) = true.
Proof.
  destruct (plot_reported_cases sample_lower sample_fs sample_parse_csv iso_to_datetime
                                "Oslo" (Some "12/03/2020") None)
    as [c|e] eqn:H; [|vm_compute in H; discriminate].
  exists c. split; [reflexivity|].
  apply (chart_rows_sorted sample_lower sample_fs sample_parse_csv iso_to_datetime
           "Oslo" (Some "12/03/2020") None sample_frame c eq_refl eq_refl).
  left. exact H.
Defined.

Lemma data_file_same_iff_witness :
  data_file sample_lower "OSLO" = data_file sample_lower "Oslo" /\
  data_file sample_lower "oslo" = data_file sample_lower "OSLO".
Proof.
  split.
  - apply (proj2 (proj1 (data_file_same_iff sample_lower "OSLO" "Oslo"))).
    reflexivity.
  - apply (proj2 (data_file_same_iff sample_lower "OSLO" "Oslo")). reflexivity.
Defined.

Lemma both_outcomes_witness :
  both sample_lower sample_fs sample_parse_csv iso_to_datetime
       sample_world sample_save sample_render_template []
  = ([], Raise FileNotFoundError) \/
  exists bar line layered,
    plot_both sample_lower sample_fs sample_parse_csv iso_to_datetime "allcounties" None None
      = Ok layered /\
    layer layered = [bar; line] /\
    chart_data bar = sample_frame /\ chart_data line = sample_frame.
Proof.
  right.
  destruct (proj2 (proj2 (both_outcomes sample_lower sample_fs sample_parse_csv iso_to_datetime
                            sample_world sample_save sample_render_template []))
              sample_frame (tl sample_frame) (removelast sample_frame)
              {| Dato := date 2020 3 11; Nye_tilfeller := 3; Kumulativt_antall := 3 |}
              {| Dato := date 2020 3 13; Nye_tilfeller := 4; Kumulativt_antall := 12 |}
              eq_refl eq_refl eq_refl)
    as (bar & line & layered & _ & _ & Hb & Hl & Hdb & Hdl & _).
  exists bar, line, layered. auto.
Defined.
